(** * Result reconstruction and run creation of the dagster execution core

    A shallow embedding of
    - [dagster/core/execution/results.py]
      ([PipelineExecutionResult], [SolidExecutionResult]) and
    - [dagster_graphql/implementation/execution/run_lifecycle.py]
      ([create_valid_pipeline_run]),
    followed by the properties of the specification that concern them.

    Python exceptions are values of [exn] carried by [result]; dictionaries
    are stdpp [gmap]s; loops with an early [return] are structural
    recursions over the list they iterate. *)

From Stdlib Require Import ZArith Ascii String.
From stdpp Require Import base option list gmap strings fin_maps.

Local Open Scope string_scope.
Local Open Scope list_scope.

(** ** Exceptions *)

Inductive exn : Type :=
  | DagsterInvariantViolationError (msg : string)
  | CheckError (msg : string)
  | KeyError (key : string)
  | MalformedHandleError (text : string)
  | TransientStoreError (msg : string)
  | CollaboratorError (origin : string) (msg : string).

Inductive result (A : Type) : Type :=
  | Ok (a : A)
  | Raise (e : exn).

Arguments Ok {A} a.
Arguments Raise {A} e.

Global Instance result_ret : MRet result := fun A a => Ok a.

Global Instance result_bind : MBind result := fun A B k m =>
  match m with
  | Ok a => k a
  | Raise e => Raise e
  end.

(** ** Events *)

(** Modelled from the spec: [SolidHandle] (dagster.core.definitions is not
    among the sources) is "a hierarchical path (sequence of identifiers)". *)
Definition SolidHandle : Type := list string.

(** Modelled from the spec: [StepOutputHandle] is the "(step key, output
    name) pair identifying where a specific output's value is checkpointed". *)
Record StepOutputHandle : Type := {
  soh_step_key : string;
  soh_output_name : string
}.

(** Modelled from the spec: [StepKind] is the "step-kind tag (e.g., compute
    vs. other step kinds)"; only [StepKind.COMPUTE] is named by the source. *)
Inductive StepKind : Type :=
  | COMPUTE
  | OTHER_KIND (tag : string).

(** Modelled from the spec: [DagsterEventType] has the seven step event
    kinds of the data model; [PIPELINE_START] is the pipeline lifecycle
    event that the docstring of [step_event_list] names. *)
Inductive DagsterEventType : Type :=
  | STEP_INPUT
  | STEP_OUTPUT
  | STEP_SUCCESS
  | STEP_FAILURE
  | STEP_SKIPPED
  | STEP_MATERIALIZATION
  | STEP_EXPECTATION_RESULT
  | PIPELINE_START
  | PIPELINE_SUCCESS
  | PIPELINE_FAILURE.

Global Instance DagsterEventType_eq_dec : EqDecision DagsterEventType.
Proof. solve_decision. Defined.

Record StepFailureData : Type := { error : string }.

(** Modelled from the spec: a step event is a tagged variant, "kind enum +
    kind-specific payload type". *)
Inductive StepEventPayload : Type :=
  | InputPayload (input_name : string)
  | OutputPayload (step_output_handle : StepOutputHandle)
  | SuccessPayload
  | FailurePayload (data : StepFailureData)
  | SkippedPayload
  | MaterializationPayload (materialization : string)
  | ExpectationResultPayload (expectation_result : bool).

(** Modelled from the spec: the events "generated by the pipeline
    lifecycle", which are not step events. *)
Inductive LifecycleKind : Type :=
  | Start
  | Succeeded
  | Failed.

(** Modelled from the spec: [DagsterEvent] (dagster.core.events is not among
    the sources).  A step event carries "step key, hierarchical node handle,
    event kind, kind-specific payload" and its step kind. *)
Inductive DagsterEvent : Type :=
  | StepEvent (key : string) (handle : SolidHandle) (kind : StepKind)
              (payload : StepEventPayload)
  | PipelineEvent (lifecycle : LifecycleKind).

Definition lifecycle_type (k : LifecycleKind) : DagsterEventType :=
  match k with
  | Start => PIPELINE_START
  | Succeeded => PIPELINE_SUCCESS
  | Failed => PIPELINE_FAILURE
  end.

Definition payload_type (p : StepEventPayload) : DagsterEventType :=
  match p with
  | InputPayload _ => STEP_INPUT
  | OutputPayload _ => STEP_OUTPUT
  | SuccessPayload => STEP_SUCCESS
  | FailurePayload _ => STEP_FAILURE
  | SkippedPayload => STEP_SKIPPED
  | MaterializationPayload _ => STEP_MATERIALIZATION
  | ExpectationResultPayload _ => STEP_EXPECTATION_RESULT
  end.

Definition event_type (e : DagsterEvent) : DagsterEventType :=
  match e with
  | StepEvent _ _ _ p => payload_type p
  | PipelineEvent k => lifecycle_type k
  end.

Definition is_step_event (e : DagsterEvent) : bool :=
  match e with
  | StepEvent _ _ _ _ => true
  | PipelineEvent _ => false
  end.

Definition step_key (e : DagsterEvent) : option string :=
  match e with
  | StepEvent k _ _ _ => Some k
  | PipelineEvent _ => None
  end.

(** [event.is_failure]: the event type is one of the failure types. *)
Definition is_failure (e : DagsterEvent) : bool :=
  bool_decide (event_type e = STEP_FAILURE \/ event_type e = PIPELINE_FAILURE).

(** [event.step_output_data], defined on [STEP_OUTPUT] events only;
    [is_successful_output] is its domain. *)
Definition step_output_data (e : DagsterEvent) : option StepOutputHandle :=
  match e with
  | StepEvent _ _ _ (OutputPayload h) => Some h
  | _ => None
  end.

Definition is_successful_output (e : DagsterEvent) : bool :=
  match step_output_data e with Some _ => true | None => false end.

(** [event.step_failure_data], defined on [STEP_FAILURE] events only. *)
Definition step_failure_data (e : DagsterEvent) : option StepFailureData :=
  match e with
  | StepEvent _ _ _ (FailurePayload d) => Some d
  | _ => None
  end.

Global Instance StepKind_eq_dec : EqDecision StepKind.
Proof. solve_decision. Defined.

Global Instance StepKind_countable : Countable StepKind.
Proof.
  refine (inj_countable'
            (fun k => match k with COMPUTE => None | OTHER_KIND t => Some t end)
            (fun o => match o with None => COMPUTE | Some t => OTHER_KIND t end) _).
  intros []; reflexivity.
Defined.

(** ** Values and definitions *)

(** Python values as far as the results need them; [ObjectStoreOperation]
    is the wrapper of dagster.core.definitions.events, with its [obj]. *)
Inductive PyValue : Type :=
  | PyNone
  | PyInt (n : Z)
  | PyStr (s : string)
  | ObjectStoreOperation (op : string) (key : string) (obj : PyValue).

(** Modelled from the spec: a node definition with its named outputs. *)
Record OutputDefinition : Type := {
  output_name : string;
  runtime_type : string
}.

Record SolidDefinition : Type := {
  output_defs : list OutputDefinition
}.

Record Solid : Type := {
  solid_name : string;
  definition : SolidDefinition
}.

Definition has_output (d : SolidDefinition) (n : string) : bool :=
  existsb (fun o => String.eqb (output_name o) n) (output_defs d).

Definition output_def_named (s : Solid) (n : string) : result OutputDefinition :=
  match find (fun o => String.eqb (output_name o) n) (output_defs (definition s)) with
  | Some o => Ok o
  | None => Raise (KeyError n)
  end.

(** Modelled from the spec: a read of the intermediate store returns "a
    materialized value or a pointer wrapper to one", or fails with an error
    of the store's own, the specification's TransientStoreError. *)
Inductive Fetch : Type :=
  | Fetched (value : PyValue)
  | StoreFailure (msg : string).

(** The reconstructed pipeline context, reduced to its intermediates
    manager: [get_intermediate(context, runtime_type, step_output_handle)]. *)
Record Context : Type := {
  get_intermediate : string -> StepOutputHandle -> Fetch
}.

Definition fetch_result (f : Fetch) : result PyValue :=
  match f with
  | Fetched value => Ok value
  | StoreFailure msg => Raise (TransientStoreError msg)
  end.

Record PipelineDefinition : Type := {
  display_name : string;
  has_solid_named : string -> bool;
  get_solid : SolidHandle -> option Solid
}.

(** The node address operations the aggregator calls:
    [SolidHandle.from_string] and [SolidHandle.is_or_descends_from], the
    latter applied to the handle string as in [result_for_handle]. *)
Class NodeAddressModel : Type := {
  from_string : string -> result SolidHandle;
  is_or_descends_from : SolidHandle -> string -> bool
}.

(** [d[k].append(e)] on a [defaultdict(list)]. *)
Definition dict_append `{Countable K} (d : gmap K (list DagsterEvent))
    (k : K) (e : DagsterEvent) : gmap K (list DagsterEvent) :=
  <[k := default [] (d !! k) ++ [e]]> d.

(** ** results.py: [SolidExecutionResult] *)

Module SolidExecutionResult.

Record t : Type := {
  solid : Solid;
  step_events_by_kind : gmap StepKind (list DagsterEvent);
  reconstruct_context : unit -> Context
}.

Definition compute_step_events (self : t) : list DagsterEvent :=
  default [] (step_events_by_kind self !! COMPUTE).

Definition _compute_steps_of_type (self : t) (dagster_event_type : DagsterEventType)
    : list DagsterEvent :=
  filter (fun se => event_type se = dagster_event_type) (compute_step_events self).

Definition input_events_during_compute (self : t) : list DagsterEvent :=
  _compute_steps_of_type self STEP_INPUT.

Definition output_events_during_compute (self : t) : list DagsterEvent :=
  _compute_steps_of_type self STEP_OUTPUT.

Definition materialization_events_during_compute (self : t) : list DagsterEvent :=
  _compute_steps_of_type self STEP_MATERIALIZATION.

Definition expectation_events_during_compute (self : t) : list DagsterEvent :=
  _compute_steps_of_type self STEP_EXPECTATION_RESULT.

(** The loop of [success]: [return False] at the first [STEP_FAILURE],
    [any_success] otherwise carried to the end. *)
Fixpoint success_loop (events : list DagsterEvent) (any_success : bool) : bool :=
  match events with
  | [] => any_success
  | step_event :: rest =>
      if decide (event_type step_event = STEP_FAILURE) then false
      else if decide (event_type step_event = STEP_SUCCESS) then success_loop rest true
      else success_loop rest any_success
  end.

Definition success (self : t) : bool :=
  success_loop (compute_step_events self) false.

Definition skipped (self : t) : bool :=
  forallb (fun step_event => bool_decide (event_type step_event = STEP_SKIPPED))
          (compute_step_events self).

(** [check.invariant(len(step_failure_events) == 1)] and then
    [step_failure_events[0]]. *)
Definition compute_step_failure_event (self : t) : result DagsterEvent :=
  if success self then
    Raise (DagsterInvariantViolationError
             "Cannot call compute_step_failure_event if successful")
  else
    let step_failure_events := _compute_steps_of_type self STEP_FAILURE in
    match step_failure_events with
    | [step_failure_event] => Ok step_failure_event
    | _ => Raise (CheckError "Invariant failed.")
    end.

Definition _get_value (self : t) (context : Context)
    (step_output_data : StepOutputHandle) : result PyValue :=
  output_def ← output_def_named (solid self) (soh_output_name step_output_data);
  value ← fetch_result (get_intermediate context (runtime_type output_def) step_output_data);
  match value with
  | ObjectStoreOperation _ _ obj => Ok obj
  | _ => Ok value
  end.

(** The dictionary comprehension of [output_values], in event order. *)
Fixpoint output_values_loop (self : t) (context : Context)
    (events : list DagsterEvent) (values : gmap string PyValue)
    : result (gmap string PyValue) :=
  match events with
  | [] => Ok values
  | compute_step_event :: rest =>
      match step_output_data compute_step_event with
      | Some data =>
          value ← _get_value self context data;
          output_values_loop self context rest (<[soh_output_name data := value]> values)
      | None => output_values_loop self context rest values
      end
  end.

(** [None] of the source is [Ok None]. *)
Definition output_values (self : t) : result (option (gmap string PyValue)) :=
  if success self && negb (bool_decide (compute_step_events self = [])) then
    let context := reconstruct_context self () in
    values ← output_values_loop self context (compute_step_events self) ∅;
    Ok (Some values)
  else Ok None.

Definition not_defined_message (output_name solid_name : string) : string :=
  output_name +:+ " not defined in solid " +:+ solid_name.

Definition not_found_message (output_name solid_name : string) : string :=
  "Did not find result " +:+ output_name +:+ " in solid " +:+ solid_name
    +:+ " execution result".

(** The loop of [output_value] over a successful node's compute events. *)
Fixpoint output_value_loop (self : t) (output_name : string)
    (events : list DagsterEvent) : result PyValue :=
  match events with
  | [] =>
      Raise (DagsterInvariantViolationError
               (not_found_message output_name (solid_name (solid self))))
  | compute_step_event :: rest =>
      match step_output_data compute_step_event with
      | Some data =>
          if String.eqb (soh_output_name data) output_name then
            let context := reconstruct_context self () in
            _get_value self context data
          else output_value_loop self output_name rest
      | None => output_value_loop self output_name rest
      end
  end.

(** [None] of the source is [Ok PyNone]. *)
Definition output_value (self : t) (output_name : string) : result PyValue :=
  if negb (has_output (definition (solid self)) output_name) then
    Raise (DagsterInvariantViolationError
             (not_defined_message output_name (solid_name (solid self))))
  else if success self then
    output_value_loop self output_name (compute_step_events self)
  else Ok PyNone.

(** The loop of [failure_data]; falling off its end returns [None]. *)
Fixpoint failure_data_loop (events : list DagsterEvent) : option StepFailureData :=
  match events with
  | [] => None
  | step_event :: rest =>
      if decide (event_type step_event = STEP_FAILURE) then step_failure_data step_event
      else failure_data_loop rest
  end.

Definition failure_data (self : t) : result (option StepFailureData) :=
  Ok (failure_data_loop (compute_step_events self)).

(** The loop of [get_step_success_event]; [check.failed] ends it when no
    [STEP_SUCCESS] is found. *)
Fixpoint get_step_success_event_loop (self : t) (events : list DagsterEvent)
    : result DagsterEvent :=
  match events with
  | [] =>
      Raise (CheckError ("Failure condition: Step success not found for solid "
                           +:+ solid_name (solid self)))
  | step_event :: rest =>
      if decide (event_type step_event = STEP_SUCCESS) then Ok step_event
      else get_step_success_event_loop self rest
  end.

Definition get_step_success_event (self : t) : result DagsterEvent :=
  get_step_success_event_loop self (compute_step_events self).

(** [{se.event_specific_data.output_name: se for se in ...}]: a later event
    of the same output name replaces an earlier one.  The events are those
    of type [STEP_OUTPUT], which all carry output data. *)
Definition compute_output_event_dict (self : t) : gmap string DagsterEvent :=
  foldl (fun d se =>
           match step_output_data se with
           | Some data => <[soh_output_name data := se]> d
           | None => d
           end)
        ∅ (output_events_during_compute self).

(** [self.compute_output_event_dict[output_name]]. *)
Definition get_output_event_for_compute (self : t) (output_name : string)
    : result DagsterEvent :=
  match compute_output_event_dict self !! output_name with
  | Some se => Ok se
  | None => Raise (KeyError output_name)
  end.

End SolidExecutionResult.

(** ** results.py: [PipelineExecutionResult] *)

Module PipelineExecutionResult.

Record t : Type := {
  pipeline : PipelineDefinition;
  run_id : string;
  event_list : list DagsterEvent;
  reconstruct_context : unit -> Context;
  _events_by_step_key : gmap (option string) (list DagsterEvent)
}.

Definition _construct_events_by_step_key (event_list : list DagsterEvent)
    : gmap (option string) (list DagsterEvent) :=
  foldl (fun events_by_step_key event =>
           dict_append events_by_step_key (step_key event) event)
        ∅ event_list.

(** [__init__]. *)
Definition new (pipeline : PipelineDefinition) (run_id : string)
    (event_list : list DagsterEvent) (reconstruct_context : unit -> Context) : t :=
  {| pipeline := pipeline;
     run_id := run_id;
     event_list := event_list;
     reconstruct_context := reconstruct_context;
     _events_by_step_key := _construct_events_by_step_key event_list |}.

Definition success (self : t) : bool :=
  forallb (fun event => negb (is_failure event)) (event_list self).

Definition step_event_list (self : t) : list DagsterEvent :=
  List.filter is_step_event (event_list self).

Definition events_by_step_key (self : t) : gmap (option string) (list DagsterEvent) :=
  _events_by_step_key self.

Section Handles.
Context `{NodeAddressModel}.

(** One turn of the loop of [result_for_handle]: a step event whose
    solid handle is or descends from [handle] is appended to the list of
    its step kind. *)
Definition bucket_event (handle : string)
    (events_by_kind : gmap StepKind (list DagsterEvent)) (event : DagsterEvent)
    : gmap StepKind (list DagsterEvent) :=
  match event with
  | StepEvent _ solid_handle step_kind _ =>
      if is_or_descends_from solid_handle handle
      then dict_append events_by_kind step_kind event
      else events_by_kind
  | PipelineEvent _ => events_by_kind
  end.

Definition result_for_handle (self : t) (handle : string)
    : result SolidExecutionResult.t :=
  solid_handle ← from_string handle;
  match get_solid (pipeline self) solid_handle with
  | None =>
      Raise (DagsterInvariantViolationError
               ("Can not find solid handle " +:+ handle +:+ " in pipeline."))
  | Some solid_def =>
      let events_by_kind := foldl (bucket_event handle) ∅ (event_list self) in
      Ok {| SolidExecutionResult.solid := solid_def;
            SolidExecutionResult.step_events_by_kind := events_by_kind;
            SolidExecutionResult.reconstruct_context := reconstruct_context self |}
  end.

Definition result_for_solid (self : t) (name : string)
    : result SolidExecutionResult.t :=
  if negb (has_solid_named (pipeline self) name) then
    Raise (DagsterInvariantViolationError
             ("Tried to get result for solid " +:+ name +:+ " in "
                +:+ display_name (pipeline self) +:+ ". No such top level solid."))
  else result_for_handle self name.
End Handles.

End PipelineExecutionResult.

(** ** Node addresses as paths *)

Module NodeAddress.

Fixpoint split_on (sep : ascii) (text : string) : list string :=
  match text with
  | EmptyString => [EmptyString]
  | String c rest =>
      if Ascii.eqb c sep then EmptyString :: split_on sep rest
      else match split_on sep rest with
           | segment :: segments => String c segment :: segments
           | [] => [String c EmptyString]
           end
  end.

(** Modelled from the spec: [parse(text)] treats "the handle as a
    dot-delimited path" and "fails with MalformedHandleError on invalid
    syntax", here a path with an empty segment. *)
Definition parse (text : string) : result SolidHandle :=
  let segments := split_on "."%char text in
  if existsb (String.eqb EmptyString) segments
  then Raise (MalformedHandleError text)
  else Ok segments.

(** Modelled from the spec: [is_or_descends_from] is "true if the handle
    equals other or other is a proper prefix of it", "a prefix comparison
    over path segments, not string prefix". *)
Definition descends (handle : SolidHandle) (ancestor : string) : bool :=
  match parse ancestor with
  | Ok path => bool_decide (path `prefix_of` handle)
  | Raise _ => false
  end.

Definition path_model : NodeAddressModel :=
  {| from_string := parse; is_or_descends_from := descends |}.

End NodeAddress.

(** The events that [result_for_handle handle] files under [kind]. *)
Definition selects `{NodeAddressModel} (handle : string) (kind : StepKind) (event : DagsterEvent) : bool :=
  match event with
  | StepEvent _ solid_handle step_kind _ =>
      is_or_descends_from solid_handle handle && bool_decide (step_kind = kind)
  | PipelineEvent _ => false
  end.

(** The condition of the loop of [output_value]: a successful output whose
    output name is [output_name]. *)
Definition is_output_named (output_name : string) (event : DagsterEvent) : bool :=
  match step_output_data event with
  | Some data => String.eqb (soh_output_name data) output_name
  | None => false
  end.

(** ** run_lifecycle.py *)

(** Modelled from the spec: the run status enumeration, "NOT_STARTED,
    STARTED, SUCCESS, FAILURE, CANCELED". *)
Inductive PipelineRunStatus : Type :=
  | NOT_STARTED
  | STARTED
  | SUCCESS
  | FAILURE
  | CANCELED.

(** The keyword arguments of [instance.create_run], which are the fields of
    the run record.  Snapshots and the run configuration are kept as their
    serialised text. *)
Module PipelineRun.
Record t : Type := {
  pipeline_snapshot : string;
  execution_plan_snapshot : string;
  parent_pipeline_snapshot : option string;
  pipeline_name : string;
  run_id : string;
  solids_to_execute : option (gset string);
  run_config : string;
  mode : string;
  step_keys_to_execute : option (list string);
  tags : gmap string string;
  root_run_id : option string;
  parent_run_id : option string;
  status : PipelineRunStatus
}.
End PipelineRun.

Module ExecutionMetadata.
Record t : Type := {
  run_id : option string;
  tags : gmap string string;
  root_run_id : option string;
  parent_run_id : option string
}.
End ExecutionMetadata.

Module Selector.
Record t : Type := {
  pipeline_name : string;
  solid_selection : option (list string)
}.
End Selector.

Module ExecutionParams.
Record t : Type := {
  selector : Selector.t;
  run_config : string;
  mode : string;
  execution_metadata : ExecutionMetadata.t
}.
End ExecutionParams.

Module ExternalPipeline.
Record t : Type := {
  pipeline_snapshot : string;
  parent_pipeline_snapshot : option string;
  tags : gmap string string
}.
End ExternalPipeline.

Module ExternalExecutionPlan.
Record t : Type := {
  execution_plan_snapshot : string
}.
End ExternalExecutionPlan.

(** Modelled from the spec: [graphene_info.context.instance], of which the
    sources only have the call [create_run].  It is the run store of the
    external interfaces, "create(run_record) -> PipelineRun (durable
    write)": the records written so far, in order. *)
Record DagsterInstance : Type := {
  runs : list PipelineRun.t
}.

(** Computations of the coordinator: they may raise and may write to the
    instance. *)
Definition Run (A : Type) : Type := DagsterInstance -> result A * DagsterInstance.

Definition run_bind {A B : Type} (m : Run A) (k : A -> Run B) : Run B :=
  fun instance =>
    match m instance with
    | (Ok a, instance') => k a instance'
    | (Raise e, instance') => (Raise e, instance')
    end.

Notation "'let*' x ':=' m 'in' k" := (run_bind m (fun x => k))
  (at level 10, x name, m at level 100, k at level 200).

(** A collaborator that reads the instance and does not write to it. *)
Definition reading {A : Type} (f : DagsterInstance -> result A) : Run A :=
  fun instance => (f instance, instance).

(** The stored run of a given run id; run ids are unique in the store. *)
Definition get_run_by_id (instance : DagsterInstance) (run_id : string)
    : option PipelineRun.t :=
  find (fun run => String.eqb (PipelineRun.run_id run) run_id) (runs instance).

(** Modelled from the spec: the lineage the persist step records,
    "root_run_id/parent_run_id as provided (if a root_run_id is absent but a
    parent_run_id is present, root defaults to the parent's own root)".  A
    parent that the store does not hold gives no root. *)
Definition resolve_root_run_id (instance : DagsterInstance)
    (root_run_id parent_run_id : option string) : option string :=
  match root_run_id, parent_run_id with
  | Some root, _ => Some root
  | None, Some parent_id =>
      match get_run_by_id instance parent_id with
      | Some parent => PipelineRun.root_run_id parent
      | None => None
      end
  | None, None => None
  end.

(** Modelled from the spec: [instance.create_run], called with keyword
    arguments, is the persist step of the coordinator and the durable write
    of the run store: it records the run with the lineage resolved as
    above, the other fields as given, and returns the record it wrote. *)
Definition create_run (run : PipelineRun.t) : Run PipelineRun.t :=
  fun instance =>
    let record :=
      {| PipelineRun.pipeline_snapshot := PipelineRun.pipeline_snapshot run;
         PipelineRun.execution_plan_snapshot := PipelineRun.execution_plan_snapshot run;
         PipelineRun.parent_pipeline_snapshot := PipelineRun.parent_pipeline_snapshot run;
         PipelineRun.pipeline_name := PipelineRun.pipeline_name run;
         PipelineRun.run_id := PipelineRun.run_id run;
         PipelineRun.solids_to_execute := PipelineRun.solids_to_execute run;
         PipelineRun.run_config := PipelineRun.run_config run;
         PipelineRun.mode := PipelineRun.mode run;
         PipelineRun.step_keys_to_execute := PipelineRun.step_keys_to_execute run;
         PipelineRun.tags := PipelineRun.tags run;
         PipelineRun.root_run_id :=
           resolve_root_run_id instance (PipelineRun.root_run_id run)
             (PipelineRun.parent_run_id run);
         PipelineRun.parent_run_id := PipelineRun.parent_run_id run;
         PipelineRun.status := PipelineRun.status run |} in
    (Ok record, {| runs := runs instance ++ [record] |}).

(** Modelled from the spec: [merge_dicts(left, right)] of dagster.utils,
    by which "run tags take precedence on key collision": the keys of
    [right] keep their values, the other keys of [left] are added. *)
Definition merge_dicts (left right : gmap string string) : gmap string string :=
  right ∪ left.

(** The functions [create_valid_pipeline_run] imports and calls.  Modelled
    from the spec (external interfaces): the config validator and the plan
    builder are functions of their arguments, and the step-subset resolver
    "never mutates persisted state", so each of them reads the instance at
    most. [make_new_run_id ()] is the identifier drawn at this call. *)
Class Collaborators : Type := {
  ensure_valid_config : ExternalPipeline.t -> string -> string -> result unit;
  compute_step_keys_to_execute :
    DagsterInstance -> ExternalPipeline.t -> ExecutionParams.t
    -> result (option (list string));
  get_external_execution_plan_or_raise :
    DagsterInstance -> ExternalPipeline.t -> string -> string
    -> option (list string) -> result ExternalExecutionPlan.t;
  make_new_run_id : unit -> string
}.

(** [x if x else y] on an optional string: [None] and the empty string are
    false. *)
Definition str_or_else (x : option string) (y : unit -> string) : string :=
  match x with
  | Some text => if String.eqb text "" then y () else text
  | None => y ()
  end.

(** [frozenset(x) if x else None] on an optional list. *)
Definition frozenset_or_none (x : option (list string)) : option (gset string) :=
  match x with
  | Some (name :: names) => Some (list_to_set (name :: names))
  | Some [] => None
  | None => None
  end.

Definition create_valid_pipeline_run `{Collaborators}
    (external_pipeline : ExternalPipeline.t) (execution_params : ExecutionParams.t)
    : Run PipelineRun.t :=
  let* _ := reading (fun _ =>
      ensure_valid_config external_pipeline
        (ExecutionParams.mode execution_params)
        (ExecutionParams.run_config execution_params)) in
  let* step_keys_to_execute := reading (fun graphene_info =>
      compute_step_keys_to_execute graphene_info external_pipeline execution_params) in
  let* external_execution_plan := reading (fun graphene_info =>
      get_external_execution_plan_or_raise graphene_info external_pipeline
        (ExecutionParams.mode execution_params)
        (ExecutionParams.run_config execution_params)
        step_keys_to_execute) in
  let execution_metadata := ExecutionParams.execution_metadata execution_params in
  create_run
    {| PipelineRun.pipeline_snapshot := ExternalPipeline.pipeline_snapshot external_pipeline;
       PipelineRun.execution_plan_snapshot :=
         ExternalExecutionPlan.execution_plan_snapshot external_execution_plan;
       PipelineRun.parent_pipeline_snapshot :=
         ExternalPipeline.parent_pipeline_snapshot external_pipeline;
       PipelineRun.pipeline_name :=
         Selector.pipeline_name (ExecutionParams.selector execution_params);
       PipelineRun.run_id :=
         str_or_else (ExecutionMetadata.run_id execution_metadata) make_new_run_id;
       PipelineRun.solids_to_execute :=
         frozenset_or_none (Selector.solid_selection (ExecutionParams.selector execution_params));
       PipelineRun.run_config := ExecutionParams.run_config execution_params;
       PipelineRun.mode := ExecutionParams.mode execution_params;
       PipelineRun.step_keys_to_execute := step_keys_to_execute;
       PipelineRun.tags :=
         merge_dicts (ExternalPipeline.tags external_pipeline)
                     (ExecutionMetadata.tags execution_metadata);
       PipelineRun.root_run_id := ExecutionMetadata.root_run_id execution_metadata;
       PipelineRun.parent_run_id := ExecutionMetadata.parent_run_id execution_metadata;
       PipelineRun.status := NOT_STARTED |}.

(** ** A nested pipeline, its events and stores *)

Definition result_output : OutputDefinition :=
  {| output_name := "result"; runtime_type := "Int" |}.

Definition inner_solid : Solid :=
  {| solid_name := "inner"; definition := {| output_defs := [result_output] |} |}.

Definition outer_solid : Solid :=
  {| solid_name := "outer"; definition := {| output_defs := [result_output] |} |}.

(** The composite [outer] contains the leaf [outer.inner]. *)
Definition nested_pipeline : PipelineDefinition :=
  {| display_name := "nested";
     has_solid_named := fun name => String.eqb name "outer";
     get_solid := fun handle =>
       match handle with
       | [a] => if String.eqb a "outer" then Some outer_solid else None
       | [a; b] =>
           if String.eqb a "outer" && String.eqb b "inner" then Some inner_solid else None
       | _ => None
       end |}.

Definition inner_handle : SolidHandle := ["outer"; "inner"].

Definition inner_output : StepOutputHandle :=
  {| soh_step_key := "outer.inner.compute"; soh_output_name := "result" |}.

Definition failed_events : list DagsterEvent :=
  [ PipelineEvent Start;
    StepEvent "outer.inner.compute" inner_handle COMPUTE
      (FailurePayload {| error := "boom" |});
    PipelineEvent Failed ].

Definition succeeded_events : list DagsterEvent :=
  [ PipelineEvent Start;
    StepEvent "outer.inner.compute" inner_handle COMPUTE (OutputPayload inner_output);
    StepEvent "outer.inner.compute" inner_handle COMPUTE SuccessPayload;
    PipelineEvent Succeeded ].

Definition skipped_events : list DagsterEvent :=
  [ PipelineEvent Start;
    StepEvent "outer.inner.compute" inner_handle COMPUTE SkippedPayload ].

(** A store that holds 42 and returns it as it is, and one that returns it
    inside the wrapper. *)
Definition plain_store : unit -> Context :=
  fun _ => {| get_intermediate := fun _ _ => Fetched (PyInt 42) |}.

Definition wrapping_store : unit -> Context :=
  fun _ => {| get_intermediate := fun _ handle =>
                Fetched (ObjectStoreOperation "GET_OBJECT" (soh_step_key handle) (PyInt 42)) |}.

Definition node_result (events : list DagsterEvent) (store : unit -> Context)
    : SolidExecutionResult.t :=
  {| SolidExecutionResult.solid := inner_solid;
     SolidExecutionResult.step_events_by_kind := {[ COMPUTE := events ]};
     SolidExecutionResult.reconstruct_context := store |}.

(** ** A retry request and its collaborators *)

Definition accepting : Collaborators :=
  {| ensure_valid_config := fun _ _ _ => Ok ();
     compute_step_keys_to_execute := fun _ _ _ => Ok (Some ["b.compute"; "c.compute"]);
     get_external_execution_plan_or_raise :=
       fun _ _ _ _ _ => Ok {| ExternalExecutionPlan.execution_plan_snapshot := "plan" |};
     make_new_run_id := fun _ => "R2" |}.

(** The plan builder refuses the step subset. *)
Definition refusing_plan : Collaborators :=
  {| ensure_valid_config := fun _ _ _ => Ok ();
     compute_step_keys_to_execute := fun _ _ _ => Ok (Some ["b.compute"; "c.compute"]);
     get_external_execution_plan_or_raise :=
       fun _ _ _ _ _ =>
         Raise (CollaboratorError "get_external_execution_plan_or_raise" "invalid subset");
     make_new_run_id := fun _ => "R2" |}.

Definition team_pipeline : ExternalPipeline.t :=
  {| ExternalPipeline.pipeline_snapshot := "snapshot";
     ExternalPipeline.parent_pipeline_snapshot := None;
     ExternalPipeline.tags := {[ "team" := "x" ]} |}.

Definition past_run (run_id : string) (root parent : option string) : PipelineRun.t :=
  {| PipelineRun.pipeline_snapshot := "snapshot";
     PipelineRun.execution_plan_snapshot := "plan";
     PipelineRun.parent_pipeline_snapshot := None;
     PipelineRun.pipeline_name := "team_pipeline";
     PipelineRun.run_id := run_id;
     PipelineRun.solids_to_execute := None;
     PipelineRun.run_config := "{}";
     PipelineRun.mode := "default";
     PipelineRun.step_keys_to_execute := None;
     PipelineRun.tags := {[ "team" := "x" ]};
     PipelineRun.root_run_id := root;
     PipelineRun.parent_run_id := parent;
     PipelineRun.status := FAILURE |}.

(** The run R0 and its retry R1, both failed. *)
Definition two_runs : DagsterInstance :=
  {| runs := [past_run "R0" None None; past_run "R1" (Some "R0") (Some "R0")] |}.

(** A retry of R1 that names no root run. *)
Definition retry_of_R1 : ExecutionParams.t :=
  {| ExecutionParams.selector :=
       {| Selector.pipeline_name := "team_pipeline"; Selector.solid_selection := None |};
     ExecutionParams.run_config := "{}";
     ExecutionParams.mode := "default";
     ExecutionParams.execution_metadata :=
       {| ExecutionMetadata.run_id := None;
          ExecutionMetadata.tags := {[ "team" := "y"; "env" := "prod" ]};
          ExecutionMetadata.root_run_id := None;
          ExecutionMetadata.parent_run_id := Some "R1" |} |}.

(** * Properties *)

(** ** The aggregator's indexes are filters of the event list *)

Section Aggregator.
Context `{NodeAddressModel}.

Lemma bucket_fold_lookup (handle : string) (kind : StepKind)
    (events : list DagsterEvent) (acc : gmap StepKind (list DagsterEvent)) :
  default [] (foldl (PipelineExecutionResult.bucket_event handle) acc events !! kind)
  = default [] (acc !! kind) ++ List.filter (selects handle kind) events.
Proof.
  revert acc. induction events as [|event events IH]; intros acc; simpl.
  - by rewrite app_nil_r.
  - rewrite IH. destruct event as [key sh sk payload|lifecycle]; simpl; [|done].
    destruct (is_or_descends_from sh handle); simpl; [|done].
    unfold dict_append. destruct (decide (sk = kind)) as [->|Hne].
    + rewrite lookup_insert_eq, bool_decide_eq_true_2 by done.
      simpl. by rewrite <- app_assoc.
    + rewrite lookup_insert_ne, bool_decide_eq_false_2 by done. done.
Qed.

Lemma result_for_handle_ok (self : PipelineExecutionResult.t) (handle : string)
    (solid_handle : SolidHandle) (solid_def : Solid) :
  from_string handle = Ok solid_handle ->
  get_solid (PipelineExecutionResult.pipeline self) solid_handle = Some solid_def ->
  exists r, PipelineExecutionResult.result_for_handle self handle = Ok r
    /\ SolidExecutionResult.solid r = solid_def
    /\ SolidExecutionResult.reconstruct_context r
       = PipelineExecutionResult.reconstruct_context self
    /\ SolidExecutionResult.compute_step_events r
       = List.filter (selects handle COMPUTE) (PipelineExecutionResult.event_list self).
Proof.
  intros Hparse Hsolid. unfold PipelineExecutionResult.result_for_handle.
  rewrite Hparse. simpl. rewrite Hsolid.
  eexists; split; [reflexivity|]. repeat split.
  unfold SolidExecutionResult.compute_step_events; simpl.
  by rewrite bucket_fold_lookup, lookup_empty.
Qed.

Lemma step_key_fold_lookup (key : option string) (events : list DagsterEvent)
    (acc : gmap (option string) (list DagsterEvent)) :
  default [] (foldl (fun d event => dict_append d (step_key event) event) acc events !! key)
  = default [] (acc !! key)
      ++ List.filter (fun event => bool_decide (step_key event = key)) events.
Proof.
  revert acc. induction events as [|event events IH]; intros acc; simpl.
  - by rewrite app_nil_r.
  - rewrite IH. unfold dict_append.
    destruct (decide (step_key event = key)) as [<-|Hne].
    + rewrite lookup_insert_eq, bool_decide_eq_true_2 by done.
      simpl. by rewrite <- app_assoc.
    + rewrite lookup_insert_ne, bool_decide_eq_false_2 by done. done.
Qed.

End Aggregator.

(** ** Success and skip of a node *)

Lemma success_loop_true (events : list DagsterEvent) (any_success : bool) :
  SolidExecutionResult.success_loop events any_success = true <->
  (any_success = true \/ exists e, e ∈ events /\ event_type e = STEP_SUCCESS)
  /\ (forall e, e ∈ events -> event_type e <> STEP_FAILURE).
Proof.
  revert any_success. induction events as [|event events IH]; intros b; simpl.
  - split.
    + intros ->. split; [by left|]. intros e He. by apply elem_of_nil in He.
    + intros [[Hb|(e & He & _)] _]; [done|]. by apply elem_of_nil in He.
  - destruct (decide (event_type event = STEP_FAILURE)) as [Hf|Hf].
    + split; [done|]. intros [_ Hno]. exfalso. apply (Hno event); [left|done].
    + destruct (decide (event_type event = STEP_SUCCESS)) as [Hs|Hs]; rewrite IH.
      * split.
        -- intros [_ Hno]. split.
           ++ right. exists event. split; [left|done].
           ++ intros e He. apply elem_of_cons in He as [->|He]; auto.
        -- intros [_ Hno]. split; [by left|]. intros e He. apply Hno. by right.
      * split.
        -- intros [Hany Hno]. split.
           ++ destruct Hany as [Hb|(e & He & Hty)]; [by left|].
              right. exists e. split; [by right|done].
           ++ intros e He. apply elem_of_cons in He as [->|He]; auto.
        -- intros [Hany Hno]. split.
           ++ destruct Hany as [Hb|(e & He & Hty)]; [by left|].
              apply elem_of_cons in He as [->|He]; [done|]. right. by exists e.
           ++ intros e He. apply Hno. by right.
Qed.

Lemma elem_of_filter_bool {A : Type} (f : A -> bool) (l : list A) (x : A) :
  x ∈ List.filter f l <-> x ∈ l /\ f x = true.
Proof. rewrite !list_elem_of_In. apply filter_In. Qed.

Lemma compute_events_filter `{NodeAddressModel} (self : PipelineExecutionResult.t)
    (handle : string) (r : SolidExecutionResult.t) :
  PipelineExecutionResult.result_for_handle self handle = Ok r ->
  SolidExecutionResult.compute_step_events r
  = List.filter (selects handle COMPUTE) (PipelineExecutionResult.event_list self).
Proof.
  unfold PipelineExecutionResult.result_for_handle.
  destruct (from_string handle) as [sh|e]; simpl; [|done].
  destruct (get_solid _ sh) as [solid_def|]; [|done].
  intros [= <-]. unfold SolidExecutionResult.compute_step_events; simpl.
  by rewrite bucket_fold_lookup, lookup_empty.
Qed.

(** C1. For every node handle that names a node of the pipeline and every
    event list, the node result exists and its [success] is true exactly
    when, among the compute-phase step events whose solid handle is or
    descends from the queried handle, there is a STEP_SUCCESS and there is
    no STEP_FAILURE.  In particular a compute STEP_FAILURE of a step that
    is or descends from both "outer" and "outer.inner" makes the results of
    both handles unsuccessful. *)
Theorem node_success_iff `{NodeAddressModel} (pipeline : PipelineDefinition)
    (run_id : string) (events : list DagsterEvent) (store : unit -> Context) :
  let self := PipelineExecutionResult.new pipeline run_id events store in
  (forall (handle : string) (solid_handle : SolidHandle) (solid_def : Solid),
      from_string handle = Ok solid_handle ->
      get_solid pipeline solid_handle = Some solid_def ->
      exists r, PipelineExecutionResult.result_for_handle self handle = Ok r /\
        (SolidExecutionResult.success r = true <->
         (exists e, e ∈ events /\ selects handle COMPUTE e = true
                    /\ event_type e = STEP_SUCCESS)
         /\ (forall e, e ∈ events -> selects handle COMPUTE e = true ->
                       event_type e <> STEP_FAILURE)))
  /\ (forall (key : string) (leaf : SolidHandle) (data : StepFailureData)
             (outer_handle inner_handle : SolidHandle) (outer_def inner_def : Solid),
      from_string "outer" = Ok outer_handle ->
      get_solid pipeline outer_handle = Some outer_def ->
      from_string "outer.inner" = Ok inner_handle ->
      get_solid pipeline inner_handle = Some inner_def ->
      is_or_descends_from leaf "outer" = true ->
      is_or_descends_from leaf "outer.inner" = true ->
      StepEvent key leaf COMPUTE (FailurePayload data) ∈ events ->
      exists r_outer r_inner,
        PipelineExecutionResult.result_for_handle self "outer" = Ok r_outer
        /\ PipelineExecutionResult.result_for_handle self "outer.inner" = Ok r_inner
        /\ SolidExecutionResult.success r_outer = false
        /\ SolidExecutionResult.success r_inner = false).
Proof.
  intros self.
  assert (Hgen : forall (handle : string) (solid_handle : SolidHandle) (solid_def : Solid),
      from_string handle = Ok solid_handle ->
      get_solid pipeline solid_handle = Some solid_def ->
      exists r, PipelineExecutionResult.result_for_handle self handle = Ok r /\
        (SolidExecutionResult.success r = true <->
         (exists e, e ∈ events /\ selects handle COMPUTE e = true
                    /\ event_type e = STEP_SUCCESS)
         /\ (forall e, e ∈ events -> selects handle COMPUTE e = true ->
                       event_type e <> STEP_FAILURE))).
  { intros handle sh solid_def Hparse Hsolid.
    destruct (result_for_handle_ok self handle sh solid_def Hparse Hsolid)
      as (r & Hr & _ & _ & Hev).
    exists r. split; [done|].
    unfold SolidExecutionResult.success. rewrite Hev, success_loop_true. simpl.
    split.
    - intros [[Hb|(e & He & Hty)] Hno]; [done|].
      apply elem_of_filter_bool in He as [He Hsel]. split; [by exists e|].
      intros e' He' Hsel'. apply Hno. by apply elem_of_filter_bool.
    - intros [(e & He & Hsel & Hty) Hno]. split.
      + right. exists e. split; [by apply elem_of_filter_bool|done].
      + intros e' He'. apply elem_of_filter_bool in He' as [He' Hsel']. by apply Hno. }
  split; [exact Hgen|].
  intros key leaf data ho hi outer_def inner_def Hpo Hso Hpi Hsi Hdo Hdi Hin.
  destruct (Hgen "outer" ho outer_def Hpo Hso) as (ro & Hro & Hiffo).
  destruct (Hgen "outer.inner" hi inner_def Hpi Hsi) as (ri & Hri & Hiffi).
  exists ro, ri. repeat split; [done|done| |].
  - apply not_true_is_false. rewrite Hiffo. intros [_ Hno].
    apply (Hno _ Hin); [|done]. simpl. by rewrite Hdo.
  - apply not_true_is_false. rewrite Hiffi. intros [_ Hno].
    apply (Hno _ Hin); [|done]. simpl. by rewrite Hdi.
Qed.

Lemma node_success_iff_witness :
  let self := PipelineExecutionResult.new nested_pipeline "run" failed_events plain_store in
  exists r_outer r_inner,
    PipelineExecutionResult.result_for_handle (H := NodeAddress.path_model) self "outer"
    = Ok r_outer
    /\ PipelineExecutionResult.result_for_handle (H := NodeAddress.path_model) self
         "outer.inner" = Ok r_inner
    /\ SolidExecutionResult.success r_outer = false
    /\ SolidExecutionResult.success r_inner = false.
Proof.
  intros self.
  destruct (node_success_iff (H := NodeAddress.path_model)
              nested_pipeline "run" failed_events plain_store) as [_ Hleaf].
  apply (Hleaf "outer.inner.compute" inner_handle {| error := "boom" |}
               ["outer"] ["outer"; "inner"] outer_solid inner_solid);
    try reflexivity.
  right; left.
Defined.

(** C4. For every node handle that names a node of the pipeline and every
    event list, the node result's [skipped] is true exactly when every
    compute-phase step event selected for the handle is a STEP_SKIPPED. *)
Theorem node_skipped_iff `{NodeAddressModel} (pipeline : PipelineDefinition)
    (run_id : string) (events : list DagsterEvent) (store : unit -> Context)
    (handle : string) (solid_handle : SolidHandle) (solid_def : Solid) :
  from_string handle = Ok solid_handle ->
  get_solid pipeline solid_handle = Some solid_def ->
  exists r,
    PipelineExecutionResult.result_for_handle
      (PipelineExecutionResult.new pipeline run_id events store) handle = Ok r
    /\ (SolidExecutionResult.skipped r = true <->
        forall e, e ∈ events -> selects handle COMPUTE e = true ->
                  event_type e = STEP_SKIPPED).
Proof.
  intros Hparse Hsolid.
  destruct (result_for_handle_ok
              (PipelineExecutionResult.new pipeline run_id events store)
              handle solid_handle solid_def Hparse Hsolid) as (r & Hr & _ & _ & Hev).
  exists r. split; [done|].
  unfold SolidExecutionResult.skipped. rewrite Hev, forallb_forall. simpl. split.
  - intros Hall e He Hsel. apply (bool_decide_eq_true_1 _), Hall.
    apply filter_In. split; [by apply list_elem_of_In|done].
  - intros Hall e He. apply filter_In in He as [He Hsel].
    apply bool_decide_eq_true_2, Hall; [by apply list_elem_of_In|done].
Qed.

Lemma node_skipped_iff_witness :
  exists r,
    PipelineExecutionResult.result_for_handle (H := NodeAddress.path_model)
      (PipelineExecutionResult.new nested_pipeline "run" skipped_events plain_store)
      "outer" = Ok r
    /\ SolidExecutionResult.skipped r = true.
Proof.
  destruct (node_skipped_iff (H := NodeAddress.path_model) nested_pipeline "run"
              skipped_events plain_store "outer" ["outer"] outer_solid
              eq_refl eq_refl) as (r & Hr & Hiff).
  exists r. split; [exact Hr|]. apply Hiff.
  intros e He Hsel. unfold skipped_events in He.
  apply elem_of_cons in He as [->|He]; [discriminate Hsel|].
  apply elem_of_cons in He as [->|He]; [reflexivity|].
  by apply elem_of_nil in He.
Defined.

(** C10. A node result without compute-phase events, the state of a node
    that has not executed, is not successful and is skipped, and its
    [output_values] is [None] although nothing failed. *)
Theorem not_executed_node (r : SolidExecutionResult.t) :
  SolidExecutionResult.compute_step_events r = [] ->
  SolidExecutionResult.success r = false
  /\ SolidExecutionResult.skipped r = true
  /\ SolidExecutionResult.output_values r = Ok None
  /\ SolidExecutionResult._compute_steps_of_type r STEP_FAILURE = [].
Proof.
  intros Hnone.
  unfold SolidExecutionResult.success, SolidExecutionResult.skipped,
    SolidExecutionResult.output_values, SolidExecutionResult._compute_steps_of_type,
    SolidExecutionResult.success.
  rewrite Hnone. by simpl.
Qed.

Lemma not_executed_node_witness :
  SolidExecutionResult.success (node_result [] plain_store) = false
  /\ SolidExecutionResult.skipped (node_result [] plain_store) = true
  /\ SolidExecutionResult.output_values (node_result [] plain_store) = Ok None
  /\ SolidExecutionResult._compute_steps_of_type (node_result [] plain_store) STEP_FAILURE
     = [].
Proof. apply (not_executed_node (node_result [] plain_store)). reflexivity. Defined.

(** ** Failure data *)

Lemma failure_data_loop_first (events : list DagsterEvent) :
  SolidExecutionResult.failure_data_loop events
  = head (filter (fun se => event_type se = STEP_FAILURE) events) ≫= step_failure_data.
Proof.
  induction events as [|event events IH]; simpl; [done|].
  rewrite filter_cons. destruct (decide (event_type event = STEP_FAILURE)); [done|].
  exact IH.
Qed.

Lemma failure_event_has_data (e : DagsterEvent) :
  event_type e = STEP_FAILURE -> exists d, step_failure_data e = Some d.
Proof.
  destruct e as [key sh kind payload|lifecycle]; simpl.
  - destruct payload; try discriminate. by eexists.
  - by destruct lifecycle.
Qed.

(** C2, as the specification states it, fails: a node without compute-phase
    events is not successful and has no STEP_FAILURE event, and its
    [failure_data] returns [None] instead of failing. *)
Lemma failure_data_does_not_fail :
  ~ (forall r : SolidExecutionResult.t,
        SolidExecutionResult.success r = false ->
        length (SolidExecutionResult._compute_steps_of_type r STEP_FAILURE) <> 1 ->
        exists e, SolidExecutionResult.failure_data r = Raise e).
Proof.
  intros Hclaim.
  destruct (Hclaim (node_result [] plain_store)) as [e He]; [done|done|].
  discriminate He.
Qed.

(** C2, amended. [failure_data] never fails: it returns the diagnostic
    payload of the first compute-phase STEP_FAILURE event, hence of the only
    one when there is exactly one, and [None] when there is none.  The
    check for exactly one such event is made by
    [compute_step_failure_event]: on a node that is not successful it fails
    with a check error when their number is zero or greater than one, and
    returns the event when it is one. *)
Theorem failure_data_first_failure (r : SolidExecutionResult.t) :
  let failures := SolidExecutionResult._compute_steps_of_type r STEP_FAILURE in
  SolidExecutionResult.failure_data r = Ok (head failures ≫= step_failure_data)
  /\ (failures = [] -> SolidExecutionResult.failure_data r = Ok None)
  /\ (forall e rest, failures = e :: rest ->
        exists d, step_failure_data e = Some d
                  /\ SolidExecutionResult.failure_data r = Ok (Some d))
  /\ (SolidExecutionResult.success r = false ->
      (length failures <> 1 ->
         SolidExecutionResult.compute_step_failure_event r
         = Raise (CheckError "Invariant failed."))
      /\ (forall e, failures = [e] ->
            SolidExecutionResult.compute_step_failure_event r = Ok e)).
Proof.
  intros failures.
  assert (Hfd : SolidExecutionResult.failure_data r
                = Ok (head failures ≫= step_failure_data)).
  { unfold SolidExecutionResult.failure_data. by rewrite failure_data_loop_first. }
  split; [exact Hfd|]. split; [|split].
  - intros Hnil. by rewrite Hfd, Hnil.
  - intros e rest Hcons.
    assert (He : e ∈ failures) by (rewrite Hcons; left).
    unfold failures, SolidExecutionResult._compute_steps_of_type in He.
    apply list_elem_of_filter in He as [Hty _].
    destruct (failure_event_has_data e Hty) as [d Hd].
    exists d. split; [done|]. rewrite Hfd, Hcons. simpl. by rewrite Hd.
  - intros Hns. unfold SolidExecutionResult.compute_step_failure_event.
    rewrite Hns. fold failures. split.
    + intros Hlen. destruct failures as [|e [|e' rest]]; simpl in *; done.
    + by intros e ->.
Qed.

Lemma failure_data_first_failure_witness :
  let two := [ StepEvent "a.compute" ["a"] COMPUTE (FailurePayload {| error := "first" |});
               StepEvent "a.compute" ["a"] COMPUTE (FailurePayload {| error := "second" |}) ] in
  SolidExecutionResult.failure_data (node_result two plain_store)
  = Ok (Some {| error := "first" |})
  /\ SolidExecutionResult.compute_step_failure_event (node_result two plain_store)
     = Raise (CheckError "Invariant failed.")
  /\ SolidExecutionResult.failure_data (node_result [] plain_store) = Ok None.
Proof.
  intros two.
  destruct (failure_data_first_failure (node_result two plain_store))
    as (Hfirst & _ & _ & Hcheck).
  destruct (failure_data_first_failure (node_result [] plain_store))
    as (_ & Hnone & _ & _).
  split; [exact Hfirst|]. split.
  - apply Hcheck; [reflexivity|]. vm_compute. discriminate.
  - apply Hnone. reflexivity.
Defined.

(** ** Output values *)

Lemma string_length_append (a b : string) :
  String.length (a +:+ b) = String.length a + String.length b.
Proof. induction a as [|c a IH]; simpl; [done|]. by rewrite IH. Qed.

Lemma messages_differ (output_name solid_name : string) :
  SolidExecutionResult.not_found_message output_name solid_name
  <> SolidExecutionResult.not_defined_message output_name solid_name.
Proof.
  intros Heq. apply (f_equal String.length) in Heq.
  unfold SolidExecutionResult.not_found_message,
    SolidExecutionResult.not_defined_message in Heq.
  repeat (rewrite string_length_append in Heq; simpl in Heq). lia.
Qed.

Lemma has_output_def_named (s : Solid) (n : string) :
  has_output (definition s) n = true ->
  exists output_def, output_def_named s n = Ok output_def.
Proof.
  unfold has_output, output_def_named. intros Hex.
  apply existsb_exists in Hex as (o & Hin & Ho).
  destruct (find _ _) as [o'|] eqn:Hfind; [by eexists|].
  exfalso. apply (find_none _ _ Hfind) in Hin. congruence.
Qed.

Lemma get_value_not_invariant_violation (r : SolidExecutionResult.t)
    (context : Context) (data : StepOutputHandle) (msg : string) :
  SolidExecutionResult._get_value r context data
  <> Raise (DagsterInvariantViolationError msg).
Proof.
  unfold SolidExecutionResult._get_value, output_def_named.
  destruct (find _ _) as [o|]; simpl; [|done].
  destruct (get_intermediate _ _ _) as [v|m]; simpl; [|done].
  by destruct v.
Qed.

Lemma output_value_loop_not_undefined (r : SolidExecutionResult.t)
    (output_name : string) (events : list DagsterEvent) :
  SolidExecutionResult.output_value_loop r output_name events
  <> Raise (DagsterInvariantViolationError
              (SolidExecutionResult.not_defined_message output_name
                 (solid_name (SolidExecutionResult.solid r)))).
Proof.
  induction events as [|event events IH]; simpl.
  - intros [= Heq]. by apply messages_differ in Heq.
  - destruct (step_output_data event) as [data|]; [|done].
    destruct (String.eqb _ _); [|done].
    apply get_value_not_invariant_violation.
Qed.

(** C5. [output_value] fails with the error for an unknown output, the
    invariant violation "<output> not defined in solid <solid>", exactly
    when the definition of the node has no output of that name; when the
    name is defined and the node did not succeed it returns [None], without
    any error. *)
Theorem output_value_unknown_output (r : SolidExecutionResult.t) (output_name : string) :
  let unknown_output_error :=
    DagsterInvariantViolationError
      (SolidExecutionResult.not_defined_message output_name
         (solid_name (SolidExecutionResult.solid r))) in
  (SolidExecutionResult.output_value r output_name = Raise unknown_output_error
   <-> has_output (definition (SolidExecutionResult.solid r)) output_name = false)
  /\ (has_output (definition (SolidExecutionResult.solid r)) output_name = true ->
      SolidExecutionResult.success r = false ->
      SolidExecutionResult.output_value r output_name = Ok PyNone).
Proof.
  intros err. unfold SolidExecutionResult.output_value.
  destruct (has_output _ output_name) eqn:Hdef; simpl.
  - split.
    + split; [|done]. destruct (SolidExecutionResult.success r); [|done].
      intros Hraise. by apply output_value_loop_not_undefined in Hraise.
    + by intros _ ->.
  - split; [done|]. done.
Qed.

Lemma output_value_unknown_output_witness :
  SolidExecutionResult.output_value (node_result failed_events plain_store) "result"
  = Ok PyNone
  /\ SolidExecutionResult.output_value (node_result failed_events plain_store) "other"
     = Raise (DagsterInvariantViolationError "other not defined in solid inner").
Proof.
  split.
  - apply (output_value_unknown_output (node_result failed_events plain_store) "result");
      reflexivity.
  - apply (output_value_unknown_output (node_result failed_events plain_store) "other").
    reflexivity.
Defined.

Lemma output_value_loop_first (r : SolidExecutionResult.t) (output_name : string)
    (events : list DagsterEvent) (e : DagsterEvent) (data : StepOutputHandle) :
  find (is_output_named output_name) events = Some e ->
  step_output_data e = Some data ->
  soh_output_name data = output_name
  /\ SolidExecutionResult.output_value_loop r output_name events
     = SolidExecutionResult._get_value r (SolidExecutionResult.reconstruct_context r ()) data.
Proof.
  induction events as [|event events IH]; simpl; [done|].
  unfold is_output_named at 1.
  destruct (step_output_data event) as [d|] eqn:Hd; [|exact IH].
  destruct (String.eqb (soh_output_name d) output_name) eqn:Hname; [|exact IH].
  intros [= <-] Hdata. rewrite Hd in Hdata. injection Hdata as <-.
  split; [by apply String.eqb_eq|done].
Qed.

(** C9. For a successful node and a defined output name whose STEP_OUTPUT
    event is among the compute events, [output_value] reads the value the
    event's handle points at from the intermediate store, at the runtime
    type of the output, and returns the payload of a wrapper the store
    returned, and any other value as it is.  It unwraps once: a wrapper
    inside the wrapper is returned as it is.  So a stored 42 is returned as
    42 whether the store wraps it or not. *)
Theorem output_value_dereferences_once (r : SolidExecutionResult.t)
    (output_name : string) (e : DagsterEvent) (data : StepOutputHandle) :
  has_output (definition (SolidExecutionResult.solid r)) output_name = true ->
  SolidExecutionResult.success r = true ->
  find (is_output_named output_name) (SolidExecutionResult.compute_step_events r) = Some e ->
  step_output_data e = Some data ->
  exists output_def,
    output_def_named (SolidExecutionResult.solid r) output_name = Ok output_def
    /\ forall stored,
        get_intermediate (SolidExecutionResult.reconstruct_context r ())
          (runtime_type output_def) data = Fetched stored ->
        SolidExecutionResult.output_value r output_name
        = Ok (match stored with
              | ObjectStoreOperation _ _ obj => obj
              | _ => stored
              end)
        /\ (stored = PyInt 42 ->
            SolidExecutionResult.output_value r output_name = Ok (PyInt 42))
        /\ (forall op key, stored = ObjectStoreOperation op key (PyInt 42) ->
            SolidExecutionResult.output_value r output_name = Ok (PyInt 42))
        /\ (forall op key op' key' obj,
            stored = ObjectStoreOperation op key (ObjectStoreOperation op' key' obj) ->
            SolidExecutionResult.output_value r output_name
            = Ok (ObjectStoreOperation op' key' obj)).
Proof.
  intros Hdef Hsucc Hfind Hdata.
  destruct (has_output_def_named _ _ Hdef) as [output_def Hnamed].
  exists output_def. split; [done|]. intros stored Hstored.
  destruct (output_value_loop_first r output_name _ e data Hfind Hdata) as [Hname Hloop].
  assert (Hval : SolidExecutionResult.output_value r output_name
                 = Ok (match stored with
                       | ObjectStoreOperation _ _ obj => obj
                       | _ => stored
                       end)).
  { unfold SolidExecutionResult.output_value. rewrite Hdef, Hsucc. simpl.
    rewrite Hloop. unfold SolidExecutionResult._get_value.
    rewrite Hname, Hnamed. simpl. rewrite Hstored. simpl. by destruct stored. }
  split; [exact Hval|]. repeat split.
  - intros ->. exact Hval.
  - intros op key ->. exact Hval.
  - intros op key op' key' obj ->. exact Hval.
Qed.

Lemma output_value_dereferences_once_witness :
  SolidExecutionResult.output_value (node_result succeeded_events plain_store) "result"
  = Ok (PyInt 42)
  /\ SolidExecutionResult.output_value (node_result succeeded_events wrapping_store) "result"
     = Ok (PyInt 42).
Proof.
  pose (e := StepEvent "outer.inner.compute" inner_handle COMPUTE (OutputPayload inner_output)).
  split.
  - destruct (output_value_dereferences_once (node_result succeeded_events plain_store)
                "result" e inner_output eq_refl eq_refl eq_refl eq_refl)
      as (output_def & Hnamed & Hread).
    injection Hnamed as <-.
    apply (Hread (PyInt 42)); reflexivity.
  - destruct (output_value_dereferences_once (node_result succeeded_events wrapping_store)
                "result" e inner_output eq_refl eq_refl eq_refl eq_refl)
      as (output_def & Hnamed & Hread).
    injection Hnamed as <-.
    destruct (Hread (ObjectStoreOperation "GET_OBJECT" "outer.inner.compute" (PyInt 42))
                eq_refl) as (_ & _ & Hwrapped & _).
    apply (Hwrapped "GET_OBJECT" "outer.inner.compute"). reflexivity.
Defined.

(** ** Aggregation keeps the order of the event list *)

Lemma filter_bool_sublist {A : Type} (f : A -> bool) (l : list A) :
  List.filter f l `sublist_of` l.
Proof.
  induction l as [|x l IH]; simpl; [constructor|].
  destruct (f x); by constructor.
Qed.

(** C7. Two result views constructed from the same event list answer every
    handle alike: both fail with the same error, or both give node results
    with the same [success], [skipped], [output_value]s and
    [output_values].  Construction leaves the event list as it is, and
    every index keeps its order: the events of a step key, the events of a
    step kind of a node result and the compute events of an event type are
    the events of the input list that qualify, in the order of the input
    list. *)
Theorem aggregation_deterministic_ordered `{NodeAddressModel}
    (pipeline : PipelineDefinition) (run_id : string) (events : list DagsterEvent)
    (store : unit -> Context) :
  let first := PipelineExecutionResult.new pipeline run_id events store in
  let second := PipelineExecutionResult.new pipeline run_id events store in
  (forall handle : string,
      match PipelineExecutionResult.result_for_handle first handle,
            PipelineExecutionResult.result_for_handle second handle with
      | Ok r1, Ok r2 =>
          SolidExecutionResult.success r1 = SolidExecutionResult.success r2
          /\ SolidExecutionResult.skipped r1 = SolidExecutionResult.skipped r2
          /\ (forall output_name,
                SolidExecutionResult.output_value r1 output_name
                = SolidExecutionResult.output_value r2 output_name)
          /\ SolidExecutionResult.output_values r1 = SolidExecutionResult.output_values r2
      | Raise e1, Raise e2 => e1 = e2
      | _, _ => False
      end)
  /\ PipelineExecutionResult.event_list first = events
  /\ (forall key : option string,
        let of_key :=
          default [] (PipelineExecutionResult.events_by_step_key first !! key) in
        of_key = List.filter (fun event => bool_decide (step_key event = key)) events
        /\ of_key `sublist_of` events)
  /\ (forall (handle : string) (r : SolidExecutionResult.t),
        PipelineExecutionResult.result_for_handle first handle = Ok r ->
        (forall kind : StepKind,
            let of_kind := default [] (SolidExecutionResult.step_events_by_kind r !! kind) in
            of_kind = List.filter (selects handle kind) events
            /\ of_kind `sublist_of` events)
        /\ (forall ty : DagsterEventType,
              let of_type := SolidExecutionResult._compute_steps_of_type r ty in
              of_type = filter (fun event => event_type event = ty)
                          (List.filter (selects handle COMPUTE) events)
              /\ of_type `sublist_of` events)).
Proof.
  intros first second. split; [|split; [done|split]].
  - intros handle. subst first second.
    destruct (PipelineExecutionResult.result_for_handle _ handle);
      [repeat split|reflexivity].
  - intros key of_key.
    assert (Heq : of_key
                  = List.filter (fun event => bool_decide (step_key event = key)) events).
    { unfold of_key, first, PipelineExecutionResult.events_by_step_key; simpl.
      unfold PipelineExecutionResult._construct_events_by_step_key.
      by rewrite step_key_fold_lookup, lookup_empty. }
    split; [exact Heq|]. rewrite Heq. apply filter_bool_sublist.
  - intros handle r Hr. split.
    + intros kind of_kind.
      assert (Heq : of_kind = List.filter (selects handle kind) events).
      { unfold of_kind. revert Hr.
        unfold PipelineExecutionResult.result_for_handle.
        destruct (from_string handle) as [sh|e]; simpl; [|done].
        destruct (get_solid pipeline sh) as [solid_def|]; [|done].
        intros [= <-]. simpl. by rewrite bucket_fold_lookup, lookup_empty. }
      split; [exact Heq|]. rewrite Heq. apply filter_bool_sublist.
    + intros ty of_type.
      assert (Heq : of_type = filter (fun event => event_type event = ty)
                                (List.filter (selects handle COMPUTE) events)).
      { unfold of_type, SolidExecutionResult._compute_steps_of_type.
        by rewrite (compute_events_filter first handle r Hr). }
      split; [exact Heq|]. rewrite Heq.
      etrans; [apply sublist_filter|apply filter_bool_sublist].
Qed.

Lemma aggregation_deterministic_ordered_witness :
  exists r,
    PipelineExecutionResult.result_for_handle (H := NodeAddress.path_model)
      (PipelineExecutionResult.new nested_pipeline "run" succeeded_events plain_store)
      "outer" = Ok r
    /\ SolidExecutionResult._compute_steps_of_type r STEP_OUTPUT
       = [StepEvent "outer.inner.compute" inner_handle COMPUTE (OutputPayload inner_output)]
    /\ SolidExecutionResult._compute_steps_of_type r STEP_OUTPUT
         `sublist_of` succeeded_events.
Proof.
  destruct (aggregation_deterministic_ordered (H := NodeAddress.path_model)
              nested_pipeline "run" succeeded_events plain_store)
    as (_ & _ & _ & Hnode).
  eexists. split; [reflexivity|].
  refine (let Hr := proj2 (Hnode "outer" _ eq_refl) STEP_OUTPUT in _).
  destruct Hr as [Heq Hsub]. split; [exact Heq|exact Hsub].
Defined.

(** ** Run creation *)

(** The three preparatory calls of [create_valid_pipeline_run], in the
    order of the source, decide its outcome: the first that raises ends it
    with the instance as it was; otherwise one record is written. *)
Lemma create_valid_pipeline_run_outcome `{Collaborators}
    (external_pipeline : ExternalPipeline.t) (execution_params : ExecutionParams.t)
    (instance : DagsterInstance) :
  match ensure_valid_config external_pipeline
          (ExecutionParams.mode execution_params)
          (ExecutionParams.run_config execution_params) with
  | Raise e =>
      create_valid_pipeline_run external_pipeline execution_params instance
      = (Raise e, instance)
  | Ok _ =>
      match compute_step_keys_to_execute instance external_pipeline execution_params with
      | Raise e =>
          create_valid_pipeline_run external_pipeline execution_params instance
          = (Raise e, instance)
      | Ok step_keys =>
          match get_external_execution_plan_or_raise instance external_pipeline
                  (ExecutionParams.mode execution_params)
                  (ExecutionParams.run_config execution_params) step_keys with
          | Raise e =>
              create_valid_pipeline_run external_pipeline execution_params instance
              = (Raise e, instance)
          | Ok plan =>
              exists run,
                create_valid_pipeline_run external_pipeline execution_params instance
                = (Ok run, {| runs := runs instance ++ [run] |})
                /\ PipelineRun.status run = NOT_STARTED
                /\ PipelineRun.step_keys_to_execute run = step_keys
                /\ PipelineRun.execution_plan_snapshot run
                   = ExternalExecutionPlan.execution_plan_snapshot plan
                /\ PipelineRun.pipeline_snapshot run
                   = ExternalPipeline.pipeline_snapshot external_pipeline
                /\ PipelineRun.run_config run = ExecutionParams.run_config execution_params
                /\ PipelineRun.mode run = ExecutionParams.mode execution_params
                /\ PipelineRun.tags run
                   = merge_dicts (ExternalPipeline.tags external_pipeline)
                       (ExecutionMetadata.tags
                          (ExecutionParams.execution_metadata execution_params))
                /\ PipelineRun.root_run_id run
                   = resolve_root_run_id instance
                       (ExecutionMetadata.root_run_id
                          (ExecutionParams.execution_metadata execution_params))
                       (ExecutionMetadata.parent_run_id
                          (ExecutionParams.execution_metadata execution_params))
                /\ PipelineRun.parent_run_id run
                   = ExecutionMetadata.parent_run_id
                       (ExecutionParams.execution_metadata execution_params)
          end
      end
  end.
Proof.
  unfold create_valid_pipeline_run, run_bind, reading, create_run.
  destruct (ensure_valid_config _ _ _) as [[]|e]; [|done].
  destruct (compute_step_keys_to_execute _ _ _) as [step_keys|e]; [|done].
  destruct (get_external_execution_plan_or_raise _ _ _ _ _) as [plan|e]; [|done].
  eexists. split; [reflexivity|]. repeat split.
Qed.



(** C6. When validation, step resolution and plan building succeed, the run
    record that is created and persisted has the run-level tags merged
    over the pipeline-level tags: a key of the run tags has the value of
    the run tags, also when the pipeline tags have the key, and a key of
    the pipeline tags alone has the value of the pipeline tags. *)
Theorem run_tags_over_pipeline_tags `{Collaborators}
    (external_pipeline : ExternalPipeline.t) (execution_params : ExecutionParams.t)
    (instance : DagsterInstance) (step_keys : option (list string))
    (plan : ExternalExecutionPlan.t) :
  let pipeline_tags := ExternalPipeline.tags external_pipeline in
  let run_tags :=
    ExecutionMetadata.tags (ExecutionParams.execution_metadata execution_params) in
  ensure_valid_config external_pipeline (ExecutionParams.mode execution_params)
    (ExecutionParams.run_config execution_params) = Ok () ->
  compute_step_keys_to_execute instance external_pipeline execution_params = Ok step_keys ->
  get_external_execution_plan_or_raise instance external_pipeline
    (ExecutionParams.mode execution_params) (ExecutionParams.run_config execution_params)
    step_keys = Ok plan ->
  exists run instance',
    create_valid_pipeline_run external_pipeline execution_params instance
    = (Ok run, instance')
    /\ run ∈ runs instance'
    /\ (forall key value, run_tags !! key = Some value ->
                          PipelineRun.tags run !! key = Some value)
    /\ (forall key, run_tags !! key = None ->
                    PipelineRun.tags run !! key = pipeline_tags !! key)
    /\ (pipeline_tags = {[ "team" := "x" ]} ->
        run_tags = {[ "team" := "y"; "env" := "prod" ]} ->
        PipelineRun.tags run = {[ "team" := "y"; "env" := "prod" ]}).
Proof.
  intros pipeline_tags run_tags Hvalid Hkeys Hplan.
  pose proof (create_valid_pipeline_run_outcome external_pipeline execution_params instance)
    as Hout.
  rewrite Hvalid, Hkeys, Hplan in Hout.
  destruct Hout as (run & Hrun & _ & _ & _ & _ & _ & _ & Htags & _).
  exists run, {| runs := runs instance ++ [run] |}.
  fold pipeline_tags run_tags in Htags. unfold merge_dicts in Htags.
  split; [exact Hrun|]. split; [simpl; apply elem_of_app; right; left|].
  split; [|split].
  - intros key value Hkey. rewrite Htags. by apply lookup_union_Some_l.
  - intros key Hkey. rewrite Htags. by apply lookup_union_r.
  - intros Hp Hr. rewrite Htags, Hp, Hr. apply map_eq. intros key.
    rewrite lookup_union.
    destruct (decide (key = "team")) as [->|Hteam]; [done|].
    rewrite (lookup_singleton_ne "team" key) by done.
    by destruct (_ !! key).
Qed.

Lemma run_tags_over_pipeline_tags_witness :
  exists run instance',
    create_valid_pipeline_run (H := accepting) team_pipeline retry_of_R1 two_runs
    = (Ok run, instance')
    /\ run ∈ runs instance'
    /\ PipelineRun.tags run !! "team" = Some "y"
    /\ PipelineRun.tags run = {[ "team" := "y"; "env" := "prod" ]}.
Proof.
  destruct (run_tags_over_pipeline_tags (H := accepting) team_pipeline retry_of_R1 two_runs
              (Some ["b.compute"; "c.compute"])
              {| ExternalExecutionPlan.execution_plan_snapshot := "plan" |}
              eq_refl eq_refl eq_refl)
    as (run & instance' & Hrun & Hin & Hwins & _ & Hexample).
  exists run, instance'. split; [exact Hrun|]. split; [exact Hin|]. split.
  - apply Hwins. reflexivity.
  - apply Hexample; reflexivity.
Defined.

(** C8. [create_valid_pipeline_run] writes nothing before configuration
    validation, step-subset resolution and plan building have all
    succeeded: when it fails the instance holds the run records it held
    before, and it fails whenever one of the three fails.  When it returns
    a run, the three have succeeded and exactly one record has been added,
    the run returned, with status NOT_STARTED and with the resolved step
    keys, the plan built for them, and the configuration and mode of the
    request. *)
Theorem create_run_atomic `{Collaborators}
    (external_pipeline : ExternalPipeline.t) (execution_params : ExecutionParams.t)
    (instance : DagsterInstance) :
  let mode := ExecutionParams.mode execution_params in
  let run_config := ExecutionParams.run_config execution_params in
  let validated := ensure_valid_config external_pipeline mode run_config in
  let resolved := compute_step_keys_to_execute instance external_pipeline execution_params in
  let planned := get_external_execution_plan_or_raise instance external_pipeline mode
                   run_config in
  let outcome := create_valid_pipeline_run external_pipeline execution_params instance in
  (forall e, outcome.1 = Raise e -> outcome.2 = instance)
  /\ ((exists e, validated = Raise e)
      \/ (exists e, resolved = Raise e)
      \/ (exists step_keys e, resolved = Ok step_keys /\ planned step_keys = Raise e) ->
      exists e, outcome = (Raise e, instance))
  /\ (forall run, outcome.1 = Ok run ->
        validated = Ok ()
        /\ resolved = Ok (PipelineRun.step_keys_to_execute run)
        /\ (exists plan,
              planned (PipelineRun.step_keys_to_execute run) = Ok plan
              /\ PipelineRun.execution_plan_snapshot run
                 = ExternalExecutionPlan.execution_plan_snapshot plan)
        /\ runs outcome.2 = runs instance ++ [run]
        /\ PipelineRun.status run = NOT_STARTED
        /\ PipelineRun.run_config run = run_config
        /\ PipelineRun.mode run = mode).
Proof.
  intros mode run_config validated resolved planned outcome.
  pose proof (create_valid_pipeline_run_outcome external_pipeline execution_params instance)
    as Hout.
  fold mode run_config validated in Hout. fold resolved in Hout.
  fold planned outcome in Hout.
  destruct validated as [[]|e1] eqn:Hvalid.
  2:{ rewrite Hout. simpl. split; [done|]. split; [by eexists|done]. }
  destruct resolved as [step_keys|e2] eqn:Hkeys.
  2:{ rewrite Hout. simpl. split; [done|]. split; [by eexists|done]. }
  destruct (planned step_keys) as [plan|e3] eqn:Hplan.
  2:{ rewrite Hout. simpl. split; [done|]. split; [by eexists|done]. }
  destruct Hout as (run & Hrun & Hstatus & Hsk & Hsnap & _ & Hcfg & Hmode & _).
  rewrite Hrun. simpl. split; [done|]. split.
  - intros [[e He]|[[e He]|(keys & e & Hk & He)]]; [done|done|].
    injection Hk as <-. rewrite Hplan in He. done.
  - intros run' [= <-]. rewrite Hsk. split; [done|]. split; [done|].
    split; [by exists plan|]. done.
Qed.

Lemma create_run_atomic_witness :
  (exists e,
      create_valid_pipeline_run (H := refusing_plan) team_pipeline retry_of_R1 two_runs
      = (Raise e, two_runs))
  /\ (exists run,
        (create_valid_pipeline_run (H := accepting) team_pipeline retry_of_R1 two_runs).1
        = Ok run
        /\ runs (create_valid_pipeline_run (H := accepting) team_pipeline retry_of_R1
                   two_runs).2
           = runs two_runs ++ [run]
        /\ PipelineRun.status run = NOT_STARTED).
Proof.
  split.
  - destruct (create_run_atomic (H := refusing_plan) team_pipeline retry_of_R1 two_runs)
      as (_ & Hfails & _).
    apply Hfails. right; right.
    exists (Some ["b.compute"; "c.compute"]). eexists. split; reflexivity.
  - destruct (create_run_atomic (H := accepting) team_pipeline retry_of_R1 two_runs)
      as (_ & _ & Hok).
    eexists. split; [reflexivity|].
    destruct (Hok _ eq_refl) as (_ & _ & _ & Hruns & Hstatus & _).
    split; [exact Hruns|exact Hstatus].
Defined.

(** * Further properties of the result views *)

Lemma success_no_failures (r : SolidExecutionResult.t) :
  SolidExecutionResult.success r = true ->
  SolidExecutionResult._compute_steps_of_type r STEP_FAILURE = [].
Proof.
  unfold SolidExecutionResult.success. rewrite success_loop_true. intros [_ Hno].
  unfold SolidExecutionResult._compute_steps_of_type.
  destruct (filter _ _) as [|e rest] eqn:Hf; [done|].
  assert (He : e ∈ filter (fun se => event_type se = STEP_FAILURE)
                 (SolidExecutionResult.compute_step_events r))
    by (rewrite Hf; left).
  apply list_elem_of_filter in He as [Hty He]. by destruct (Hno e He).
Qed.

Lemma failures_not_success (r : SolidExecutionResult.t) (e : DagsterEvent) :
  e ∈ SolidExecutionResult.compute_step_events r ->
  event_type e = STEP_FAILURE ->
  SolidExecutionResult.success r = false.
Proof.
  intros He Hty. apply not_true_is_false. unfold SolidExecutionResult.success.
  rewrite success_loop_true. intros [_ Hno]. by apply (Hno e).
Qed.

(** X1. A successful node is not skipped: [success] and [skipped] are never
    both true of a node result. *)
Theorem success_excludes_skipped (r : SolidExecutionResult.t) :
  SolidExecutionResult.success r = true -> SolidExecutionResult.skipped r = false.
Proof.
  unfold SolidExecutionResult.success, SolidExecutionResult.skipped.
  rewrite success_loop_true. intros [[Hb|(e & He & Hty)] _]; [done|].
  apply not_true_is_false. rewrite forallb_forall. intros Hall.
  specialize (Hall e (proj1 (list_elem_of_In _ _) He)).
  apply bool_decide_eq_true_1 in Hall. congruence.
Qed.

Lemma success_excludes_skipped_witness :
  SolidExecutionResult.skipped (node_result succeeded_events plain_store) = false.
Proof. apply success_excludes_skipped. reflexivity. Defined.

(** X2. The two views of a node's failure agree.  A successful node has no
    failure data, and [compute_step_failure_event] refuses it with an
    invariant violation.  When [compute_step_failure_event] returns an
    event, the node is not successful, the event is a STEP_FAILURE among
    its compute events, and [failure_data] is the data of that event. *)
Theorem failure_views_agree (r : SolidExecutionResult.t) :
  (SolidExecutionResult.success r = true ->
   SolidExecutionResult.failure_data r = Ok None
   /\ SolidExecutionResult.compute_step_failure_event r
      = Raise (DagsterInvariantViolationError
                 "Cannot call compute_step_failure_event if successful"))
  /\ (forall e, SolidExecutionResult.compute_step_failure_event r = Ok e ->
        SolidExecutionResult.success r = false
        /\ e ∈ SolidExecutionResult.compute_step_events r
        /\ event_type e = STEP_FAILURE
        /\ exists data, step_failure_data e = Some data
                        /\ SolidExecutionResult.failure_data r = Ok (Some data)).
Proof.
  split.
  - intros Hsucc. split.
    + unfold SolidExecutionResult.failure_data. rewrite failure_data_loop_first.
      pose proof (success_no_failures r Hsucc) as Hnone.
      unfold SolidExecutionResult._compute_steps_of_type in Hnone. by rewrite Hnone.
    + unfold SolidExecutionResult.compute_step_failure_event. by rewrite Hsucc.
  - intros e. unfold SolidExecutionResult.compute_step_failure_event.
    destruct (SolidExecutionResult.success r) eqn:Hsucc; [done|].
    destruct (SolidExecutionResult._compute_steps_of_type r STEP_FAILURE)
      as [|e' [|e'' rest]] eqn:Hf; [done| |done].
    intros [= ->]. split; [done|].
    assert (He : e ∈ SolidExecutionResult._compute_steps_of_type r STEP_FAILURE)
      by (rewrite Hf; left).
    unfold SolidExecutionResult._compute_steps_of_type in He, Hf.
    apply list_elem_of_filter in He as [Hty He].
    split; [done|]. split; [done|].
    destruct (failure_event_has_data e Hty) as [data Hdata].
    exists data. split; [done|].
    unfold SolidExecutionResult.failure_data.
    rewrite failure_data_loop_first, Hf. simpl. by rewrite Hdata.
Qed.

Lemma failure_views_agree_witness :
  SolidExecutionResult.failure_data (node_result succeeded_events plain_store) = Ok None
  /\ SolidExecutionResult.failure_data (node_result failed_events plain_store)
     = Ok (Some {| error := "boom" |}).
Proof.
  split.
  - apply (failure_views_agree (node_result succeeded_events plain_store)). reflexivity.
  - destruct (failure_views_agree (node_result failed_events plain_store)) as [_ Hev].
    destruct (Hev (StepEvent "outer.inner.compute" inner_handle COMPUTE
                     (FailurePayload {| error := "boom" |})) eq_refl)
      as (_ & _ & _ & data & Hdata & Hfd).
    injection Hdata as <-. exact Hfd.
Defined.

Lemma get_step_success_event_loop_first (r : SolidExecutionResult.t)
    (events : list DagsterEvent) :
  match head (filter (fun se => event_type se = STEP_SUCCESS) events) with
  | Some e => SolidExecutionResult.get_step_success_event_loop r events = Ok e
  | None => exists msg,
      SolidExecutionResult.get_step_success_event_loop r events = Raise (CheckError msg)
  end.
Proof.
  induction events as [|event events IH]; simpl; [by eexists|].
  rewrite filter_cons. destruct (decide (event_type event = STEP_SUCCESS)); [done|].
  exact IH.
Qed.

(** X3. [get_step_success_event] returns the first compute-phase
    STEP_SUCCESS event, and fails with a check error exactly when there is
    none; on a successful node it never fails. *)
Theorem step_success_event_found (r : SolidExecutionResult.t) :
  let successes := SolidExecutionResult._compute_steps_of_type r STEP_SUCCESS in
  (forall e rest, successes = e :: rest ->
     SolidExecutionResult.get_step_success_event r = Ok e)
  /\ (successes = [] <->
      exists msg, SolidExecutionResult.get_step_success_event r = Raise (CheckError msg))
  /\ (SolidExecutionResult.success r = true ->
      exists e, SolidExecutionResult.get_step_success_event r = Ok e
                /\ e ∈ SolidExecutionResult.compute_step_events r
                /\ event_type e = STEP_SUCCESS).
Proof.
  intros successes.
  pose proof (get_step_success_event_loop_first r
                (SolidExecutionResult.compute_step_events r)) as Hloop.
  fold (SolidExecutionResult._compute_steps_of_type r STEP_SUCCESS) in Hloop.
  fold successes in Hloop. fold (SolidExecutionResult.get_step_success_event r) in Hloop.
  assert (Hcons : forall e rest, successes = e :: rest ->
            SolidExecutionResult.get_step_success_event r = Ok e).
  { intros e rest Hs. by rewrite Hs in Hloop. }
  split; [exact Hcons|]. split.
  - split.
    + intros Hs. by rewrite Hs in Hloop.
    + intros [msg Hmsg]. destruct successes as [|e rest]; [done|].
      rewrite (Hcons e rest eq_refl) in Hmsg. done.
  - unfold SolidExecutionResult.success. rewrite success_loop_true.
    intros [[Hb|(e & He & Hty)] _]; [done|].
    assert (Hin : e ∈ successes).
    { unfold successes, SolidExecutionResult._compute_steps_of_type.
      by apply list_elem_of_filter. }
    destruct successes as [|e' rest] eqn:Hs; [by apply elem_of_nil in Hin|].
    exists e'. split; [by apply (Hcons e' rest)|].
    assert (He' : e' ∈ SolidExecutionResult._compute_steps_of_type r STEP_SUCCESS)
      by (fold successes; rewrite Hs; left).
    unfold SolidExecutionResult._compute_steps_of_type in He'.
    apply list_elem_of_filter in He' as [Hty' He']. done.
Qed.

Lemma step_success_event_found_witness :
  exists e,
    SolidExecutionResult.get_step_success_event (node_result succeeded_events plain_store)
    = Ok e
    /\ event_type e = STEP_SUCCESS.
Proof.
  destruct (step_success_event_found (node_result succeeded_events plain_store))
    as (_ & _ & Hsucc).
  destruct (Hsucc eq_refl) as (e & He & _ & Hty).
  exists e. split; [exact He|exact Hty].
Defined.

(** ** All output values of a node *)

Lemma output_values_loop_lookup (r : SolidExecutionResult.t) (context : Context)
    (events : list DagsterEvent) (acc values : gmap string PyValue) (name : string) :
  SolidExecutionResult.output_values_loop r context events acc = Ok values ->
  match last (List.filter (is_output_named name) events) with
  | Some e =>
      exists data value,
        step_output_data e = Some data
        /\ SolidExecutionResult._get_value r context data = Ok value
        /\ values !! name = Some value
  | None => values !! name = acc !! name
  end.
Proof.
  revert acc. induction events as [|event events IH]; intros acc.
  - by intros [= <-].
  - cbn [SolidExecutionResult.output_values_loop List.filter].
    unfold is_output_named at 1.
    destruct (step_output_data event) as [data|] eqn:Hdata; [|apply IH].
    destruct (SolidExecutionResult._get_value r context data) as [value|e] eqn:Hvalue;
      simpl; [|done].
    intros Hloop. specialize (IH _ Hloop).
    destruct (String.eqb (soh_output_name data) name) eqn:Hname.
    + rewrite last_cons. destruct (last (List.filter _ events)); [exact IH|].
      exists data, value. apply String.eqb_eq in Hname as <-.
      by rewrite IH, lookup_insert_eq.
    + destruct (last (List.filter _ events)); [exact IH|].
      apply String.eqb_neq in Hname. by rewrite IH, lookup_insert_ne.
Qed.

Lemma filter_bool_nil_iff {A : Type} (f : A -> bool) (l : list A) :
  List.filter f l = [] <-> forall x, x ∈ l -> f x = false.
Proof.
  induction l as [|x l IH]; simpl.
  - split; [|done]. intros _ y Hy. by apply elem_of_nil in Hy.
  - destruct (f x) eqn:Hfx.
    + split; [done|]. intros Hall. specialize (Hall x (list_elem_of_here _ _)). congruence.
    + rewrite IH. split.
      * intros Hall y Hy. apply elem_of_cons in Hy as [->|Hy]; auto.
      * intros Hall y Hy. apply Hall. by right.
Qed.

Lemma find_head_filter {A : Type} (f : A -> bool) (l : list A) :
  find f l = head (List.filter f l).
Proof. induction l as [|x l IH]; simpl; [done|]. by destruct (f x). Qed.

(** X4. [output_values] returns [None] exactly when the node did not
    succeed; for a successful node it returns a dictionary or fails, so the
    test for an empty event list in its condition never decides. *)
Theorem output_values_none_iff (r : SolidExecutionResult.t) :
  SolidExecutionResult.output_values r = Ok None
  <-> SolidExecutionResult.success r = false.
Proof.
  unfold SolidExecutionResult.output_values.
  destruct (SolidExecutionResult.success r) eqn:Hsucc; simpl.
  - split; [|done]. case_bool_decide as Hnil; simpl.
    + unfold SolidExecutionResult.success in Hsucc. by rewrite Hnil in Hsucc.
    + by destruct (SolidExecutionResult.output_values_loop _ _ _ _).
  - done.
Qed.

(** X5. When [output_values] returns a dictionary, its keys are the output
    names of the node's STEP_OUTPUT compute events, and the value of a name
    is the one read for the last event of that name: a later output event
    replaces an earlier one of the same name. *)
Theorem output_values_last_wins (r : SolidExecutionResult.t)
    (values : gmap string PyValue) (name : string) :
  SolidExecutionResult.output_values r = Ok (Some values) ->
  let named := List.filter (is_output_named name)
                           (SolidExecutionResult.compute_step_events r) in
  (is_Some (values !! name) <-> named <> [])
  /\ (forall e, last named = Some e ->
        exists data value,
          step_output_data e = Some data
          /\ SolidExecutionResult._get_value r
               (SolidExecutionResult.reconstruct_context r ()) data = Ok value
          /\ values !! name = Some value).
Proof.
  intros Hvalues named. revert Hvalues.
  unfold SolidExecutionResult.output_values.
  destruct (_ && _); [|done].
  destruct (SolidExecutionResult.output_values_loop _ _ _ _) as [m|e] eqn:Hloop;
    simpl; [|done].
  intros [= ->].
  pose proof (output_values_loop_lookup _ _ _ _ _ name Hloop) as Hlookup.
  fold named in Hlookup. split.
  - rewrite <- last_is_Some. destruct (last named) as [e|].
    + destruct Hlookup as (data & value & _ & _ & ->). by split; eexists.
    + rewrite Hlookup, lookup_empty. split; intros [? ?]; done.
  - intros e He. by rewrite He in Hlookup.
Qed.

Lemma output_values_last_wins_witness :
  exists values,
    SolidExecutionResult.output_values (node_result succeeded_events wrapping_store)
    = Ok (Some values)
    /\ values !! "result" = Some (PyInt 42)
    /\ values !! "other" = None.
Proof.
  eexists. split; [reflexivity|].
  destruct (output_values_last_wins (node_result succeeded_events wrapping_store)
              _ "result" eq_refl) as [_ Hlast].
  destruct (output_values_last_wins (node_result succeeded_events wrapping_store)
              _ "other" eq_refl) as [Hkeys _].
  split.
  - destruct (Hlast _ eq_refl) as (data & value & Hdata & Hvalue & Hlookup).
    injection Hdata as <-. injection Hvalue as <-. exact Hlookup.
  - apply eq_None_not_Some. intros Hsome. by apply Hkeys in Hsome.
Defined.

Lemma output_value_loop_none (r : SolidExecutionResult.t) (output_name : string)
    (events : list DagsterEvent) :
  List.filter (is_output_named output_name) events = [] ->
  SolidExecutionResult.output_value_loop r output_name events
  = Raise (DagsterInvariantViolationError
             (SolidExecutionResult.not_found_message output_name
                (solid_name (SolidExecutionResult.solid r)))).
Proof.
  induction events as [|event events IH]; simpl; [done|].
  unfold is_output_named at 1.
  destruct (step_output_data event) as [data|]; [|exact IH].
  destruct (String.eqb _ _); [done|exact IH].
Qed.

(** X6. On a successful node, [output_value] of an output that the
    definition has but for which no STEP_OUTPUT compute event exists fails
    with the invariant violation "Did not find result <output> in solid
    <solid> execution result"; it does not return [None]. *)
Theorem output_value_not_found (r : SolidExecutionResult.t) (output_name : string) :
  has_output (definition (SolidExecutionResult.solid r)) output_name = true ->
  SolidExecutionResult.success r = true ->
  (forall e, e ∈ SolidExecutionResult.compute_step_events r ->
             is_output_named output_name e = false) ->
  SolidExecutionResult.output_value r output_name
  = Raise (DagsterInvariantViolationError
             (SolidExecutionResult.not_found_message output_name
                (solid_name (SolidExecutionResult.solid r)))).
Proof.
  intros Hdef Hsucc Hnone. unfold SolidExecutionResult.output_value.
  rewrite Hdef, Hsucc. simpl. apply output_value_loop_none.
  by apply filter_bool_nil_iff.
Qed.

Lemma output_value_not_found_witness :
  let events := [StepEvent "outer.inner.compute" inner_handle COMPUTE SuccessPayload] in
  SolidExecutionResult.output_value (node_result events plain_store) "result"
  = Raise (DagsterInvariantViolationError
             "Did not find result result in solid inner execution result").
Proof.
  intros events.
  apply (output_value_not_found (node_result events plain_store) "result");
    [reflexivity|reflexivity|].
  intros e He. apply list_elem_of_singleton in He as ->. reflexivity.
Defined.

(** X7. [output_values] and [output_value] agree on an output that has
    exactly one STEP_OUTPUT compute event: the value the dictionary holds
    for a defined output name is the value [output_value] returns. *)
Theorem output_values_agree_with_output_value (r : SolidExecutionResult.t)
    (values : gmap string PyValue) (name : string) (e : DagsterEvent) :
  SolidExecutionResult.output_values r = Ok (Some values) ->
  has_output (definition (SolidExecutionResult.solid r)) name = true ->
  List.filter (is_output_named name) (SolidExecutionResult.compute_step_events r) = [e] ->
  exists value,
    values !! name = Some value
    /\ SolidExecutionResult.output_value r name = Ok value.
Proof.
  intros Hvalues Hdef Hone.
  assert (Hsucc : SolidExecutionResult.success r = true).
  { destruct (SolidExecutionResult.success r) eqn:Hs; [done|].
    unfold SolidExecutionResult.output_values in Hvalues.
    rewrite Hs in Hvalues. discriminate Hvalues. }
  pose proof Hvalues as Hcopy. revert Hcopy.
  unfold SolidExecutionResult.output_values.
  destruct (_ && _); [|done].
  destruct (SolidExecutionResult.output_values_loop _ _ _ _) as [m|err] eqn:Hloop;
    simpl; [|done].
  intros [= ->].
  pose proof (output_values_loop_lookup _ _ _ _ _ name Hloop) as Hlookup.
  rewrite Hone in Hlookup. simpl in Hlookup.
  destruct Hlookup as (data & value & Hdata & Hvalue & Hlook).
  exists value. split; [done|].
  assert (Hfind : find (is_output_named name) (SolidExecutionResult.compute_step_events r)
                  = Some e) by (by rewrite find_head_filter, Hone).
  destruct (output_value_loop_first r name _ e data Hfind Hdata) as [_ Hfirst].
  unfold SolidExecutionResult.output_value. rewrite Hdef, Hsucc. simpl.
  by rewrite Hfirst.
Qed.

Lemma output_values_agree_with_output_value_witness :
  exists values value,
    SolidExecutionResult.output_values (node_result succeeded_events plain_store)
    = Ok (Some values)
    /\ values !! "result" = Some value
    /\ SolidExecutionResult.output_value (node_result succeeded_events plain_store) "result"
       = Ok value.
Proof.
  eexists.
  destruct (output_values_agree_with_output_value
              (node_result succeeded_events plain_store) _ "result" _
              eq_refl eq_refl eq_refl) as (value & Hlook & Hvalue).
  exists value. split; [reflexivity|]. split; [exact Hlook|exact Hvalue].
Defined.

(** ** Output events by name *)

Lemma is_output_named_type (name : string) (e : DagsterEvent) :
  is_output_named name e = true -> event_type e = STEP_OUTPUT.
Proof.
  unfold is_output_named.
  destruct e as [key sh kind payload|lifecycle]; [|done].
  by destruct payload.
Qed.

Lemma named_outputs_of_output_events (name : string) (events : list DagsterEvent) :
  List.filter (is_output_named name)
    (filter (fun se => event_type se = STEP_OUTPUT) events)
  = List.filter (is_output_named name) events.
Proof.
  induction events as [|event events IH]; [done|].
  rewrite filter_cons. simpl.
  destruct (decide (event_type event = STEP_OUTPUT)) as [Hty|Hty]; simpl.
  - by rewrite IH.
  - destruct (is_output_named name event) eqn:Hnamed; [|exact IH].
    by apply is_output_named_type in Hnamed.
Qed.

Lemma output_event_dict_lookup (name : string) (events : list DagsterEvent)
    (acc : gmap string DagsterEvent) :
  foldl (fun d se =>
           match step_output_data se with
           | Some data => <[soh_output_name data := se]> d
           | None => d
           end) acc events !! name
  = match last (List.filter (is_output_named name) events) with
    | Some e => Some e
    | None => acc !! name
    end.
Proof.
  revert acc. induction events as [|event events IH]; intros acc; [done|].
  cbn [foldl List.filter]. rewrite IH. unfold is_output_named at 2.
  destruct (step_output_data event) as [data|] eqn:Hdata; [|done].
  destruct (String.eqb (soh_output_name data) name) eqn:Hname.
  - rewrite last_cons. destruct (last (List.filter _ events)); [done|].
    apply String.eqb_eq in Hname as <-. by rewrite lookup_insert_eq.
  - destruct (last (List.filter _ events)); [done|].
    apply String.eqb_neq in Hname. by rewrite lookup_insert_ne.
Qed.

(** X8. [get_output_event_for_compute] returns the last STEP_OUTPUT compute
    event of the given output name, and fails with a key error exactly when
    the node has no STEP_OUTPUT compute event of that name. *)
Theorem output_event_for_compute_last (r : SolidExecutionResult.t) (name : string) :
  let named := List.filter (is_output_named name)
                           (SolidExecutionResult.compute_step_events r) in
  (forall e, last named = Some e ->
     SolidExecutionResult.get_output_event_for_compute r name = Ok e)
  /\ (named = [] <->
      SolidExecutionResult.get_output_event_for_compute r name = Raise (KeyError name))
  /\ (forall e, SolidExecutionResult.get_output_event_for_compute r name = Ok e ->
        e ∈ SolidExecutionResult.compute_step_events r
        /\ event_type e = STEP_OUTPUT
        /\ is_output_named name e = true).
Proof.
  intros named.
  assert (Hget : SolidExecutionResult.get_output_event_for_compute r name
                 = match last named with
                   | Some e => Ok e
                   | None => Raise (KeyError name)
                   end).
  { unfold SolidExecutionResult.get_output_event_for_compute,
      SolidExecutionResult.compute_output_event_dict,
      SolidExecutionResult.output_events_during_compute,
      SolidExecutionResult._compute_steps_of_type.
    rewrite output_event_dict_lookup, named_outputs_of_output_events.
    fold named. by destruct (last named). }
  split; [|split].
  - intros e He. by rewrite Hget, He.
  - rewrite Hget, <- last_None. by destruct (last named).
  - intros e. rewrite Hget. destruct (last named) as [e'|] eqn:Hlast; [|done].
    intros [= ->]. apply last_Some_elem_of in Hlast.
    apply elem_of_filter_bool in Hlast as [He Hnamed].
    split; [done|]. split; [by apply (is_output_named_type name)|done].
Qed.

Lemma output_event_for_compute_last_witness :
  SolidExecutionResult.get_output_event_for_compute
    (node_result succeeded_events plain_store) "result"
  = Ok (StepEvent "outer.inner.compute" inner_handle COMPUTE (OutputPayload inner_output))
  /\ SolidExecutionResult.get_output_event_for_compute
       (node_result succeeded_events plain_store) "other"
     = Raise (KeyError "other").
Proof.
  destruct (output_event_for_compute_last (node_result succeeded_events plain_store)
              "result") as (Hlast & _ & _).
  destruct (output_event_for_compute_last (node_result succeeded_events plain_store)
              "other") as (_ & Hnone & _).
  split; [apply Hlast; reflexivity|apply Hnone; reflexivity].
Defined.

(** ** What a node result depends on *)

Lemma same_compute_events_same_views (r1 r2 : SolidExecutionResult.t) :
  SolidExecutionResult.solid r1 = SolidExecutionResult.solid r2 ->
  SolidExecutionResult.reconstruct_context r1 = SolidExecutionResult.reconstruct_context r2 ->
  SolidExecutionResult.compute_step_events r1 = SolidExecutionResult.compute_step_events r2 ->
  SolidExecutionResult.success r1 = SolidExecutionResult.success r2
  /\ SolidExecutionResult.skipped r1 = SolidExecutionResult.skipped r2
  /\ SolidExecutionResult.failure_data r1 = SolidExecutionResult.failure_data r2
  /\ SolidExecutionResult.output_values r1 = SolidExecutionResult.output_values r2
  /\ (forall name, SolidExecutionResult.output_value r1 name
                   = SolidExecutionResult.output_value r2 name).
Proof.
  intros Hsolid Hstore Hevents.
  assert (Hsucc : SolidExecutionResult.success r1 = SolidExecutionResult.success r2).
  { unfold SolidExecutionResult.success. by rewrite Hevents. }
  assert (Hget : forall context data,
            SolidExecutionResult._get_value r1 context data
            = SolidExecutionResult._get_value r2 context data).
  { intros context data. unfold SolidExecutionResult._get_value. by rewrite Hsolid. }
  split; [exact Hsucc|]. split; [|split; [|split]].
  - unfold SolidExecutionResult.skipped. by rewrite Hevents.
  - unfold SolidExecutionResult.failure_data. by rewrite Hevents.
  - unfold SolidExecutionResult.output_values. rewrite Hsucc, Hevents, Hstore.
    destruct (_ && _); [|done].
    enough (Hloop : forall acc,
              SolidExecutionResult.output_values_loop r1
                (SolidExecutionResult.reconstruct_context r2 ())
                (SolidExecutionResult.compute_step_events r2) acc
              = SolidExecutionResult.output_values_loop r2
                  (SolidExecutionResult.reconstruct_context r2 ())
                  (SolidExecutionResult.compute_step_events r2) acc)
      by (by rewrite Hloop).
    generalize (SolidExecutionResult.compute_step_events r2). intros events.
    induction events as [|event events IH]; intros acc; simpl; [done|].
    destruct (step_output_data event) as [data|]; [|apply IH].
    rewrite Hget. destruct (SolidExecutionResult._get_value r2 _ data); simpl; [apply IH|done].
  - intros name. unfold SolidExecutionResult.output_value. rewrite Hsolid, Hsucc, Hevents.
    destruct (negb _); [done|]. destruct (SolidExecutionResult.success r2); [|done].
    generalize (SolidExecutionResult.compute_step_events r2). intros events.
    induction events as [|event events IH]; simpl; [by rewrite Hsolid|].
    destruct (step_output_data event) as [data|]; [|exact IH].
    destruct (String.eqb _ _); [|exact IH]. by rewrite Hstore, Hget.
Qed.

(** X9. An event that [result_for_handle] does not select as a compute
    event of the handle (a pipeline event, a step event of another step
    kind, or one of a node outside the handle's subtree) changes nothing of
    the node result: with or without it in the event list, [success],
    [skipped], [failure_data], [output_values] and every [output_value] are
    the same. *)
Theorem unselected_event_ignored `{NodeAddressModel} (pipeline : PipelineDefinition)
    (run_id : string) (store : unit -> Context) (handle : string)
    (solid_handle : SolidHandle) (solid_def : Solid)
    (before after : list DagsterEvent) (event : DagsterEvent) :
  from_string handle = Ok solid_handle ->
  get_solid pipeline solid_handle = Some solid_def ->
  selects handle COMPUTE event = false ->
  exists r1 r2,
    PipelineExecutionResult.result_for_handle
      (PipelineExecutionResult.new pipeline run_id (before ++ after) store) handle = Ok r1
    /\ PipelineExecutionResult.result_for_handle
         (PipelineExecutionResult.new pipeline run_id (before ++ event :: after) store)
         handle = Ok r2
    /\ SolidExecutionResult.success r1 = SolidExecutionResult.success r2
    /\ SolidExecutionResult.skipped r1 = SolidExecutionResult.skipped r2
    /\ SolidExecutionResult.failure_data r1 = SolidExecutionResult.failure_data r2
    /\ SolidExecutionResult.output_values r1 = SolidExecutionResult.output_values r2
    /\ (forall name, SolidExecutionResult.output_value r1 name
                     = SolidExecutionResult.output_value r2 name).
Proof.
  intros Hparse Hsolid Hignored.
  destruct (result_for_handle_ok
              (PipelineExecutionResult.new pipeline run_id (before ++ after) store)
              handle solid_handle solid_def Hparse Hsolid) as (r1 & Hr1 & Hs1 & Hc1 & He1).
  destruct (result_for_handle_ok
              (PipelineExecutionResult.new pipeline run_id (before ++ event :: after) store)
              handle solid_handle solid_def Hparse Hsolid) as (r2 & Hr2 & Hs2 & Hc2 & He2).
  exists r1, r2. split; [done|]. split; [done|].
  apply same_compute_events_same_views.
  - by rewrite Hs1, Hs2.
  - by rewrite Hc1, Hc2.
  - rewrite He1, He2. simpl. rewrite !List.filter_app. simpl. by rewrite Hignored.
Qed.

Lemma unselected_event_ignored_witness :
  let foreign := StepEvent "other.compute" ["other"] COMPUTE
                   (FailurePayload {| error := "elsewhere" |}) in
  exists r,
    PipelineExecutionResult.result_for_handle (H := NodeAddress.path_model)
      (PipelineExecutionResult.new nested_pipeline "run" (foreign :: succeeded_events)
         plain_store) "outer" = Ok r
    /\ SolidExecutionResult.success r = true.
Proof.
  intros foreign.
  destruct (unselected_event_ignored (H := NodeAddress.path_model) nested_pipeline "run"
              plain_store "outer" ["outer"] outer_solid [] succeeded_events foreign
              eq_refl eq_refl eq_refl)
    as (r1 & r2 & Hr1 & Hr2 & Hsucc & _).
  exists r2. split; [exact Hr2|]. rewrite <- Hsucc.
  injection Hr1 as <-. reflexivity.
Defined.

(** X10. Aggregating a longer event list extends the indexes of the shorter
    one: for events appended to the list, a handle that had a node result
    has one again, its compute events are the former ones followed by the
    new events selected for it, the events of each step key are the former
    ones followed by the new events of the key, and a node that had a
    compute STEP_FAILURE stays unsuccessful. *)
Theorem aggregation_extends `{NodeAddressModel} (pipeline : PipelineDefinition)
    (run_id : string) (store : unit -> Context) (handle : string)
    (earlier later : list DagsterEvent) (r1 : SolidExecutionResult.t) :
  let first := PipelineExecutionResult.new pipeline run_id earlier store in
  let second := PipelineExecutionResult.new pipeline run_id (earlier ++ later) store in
  PipelineExecutionResult.result_for_handle first handle = Ok r1 ->
  exists r2,
    PipelineExecutionResult.result_for_handle second handle = Ok r2
    /\ SolidExecutionResult.compute_step_events r2
       = SolidExecutionResult.compute_step_events r1
           ++ List.filter (selects handle COMPUTE) later
    /\ (forall key : option string,
          default [] (PipelineExecutionResult.events_by_step_key second !! key)
          = default [] (PipelineExecutionResult.events_by_step_key first !! key)
              ++ List.filter (fun event => bool_decide (step_key event = key)) later)
    /\ (SolidExecutionResult._compute_steps_of_type r1 STEP_FAILURE <> [] ->
        SolidExecutionResult.success r2 = false).
Proof.
  intros first second Hr1.
  pose proof (compute_events_filter first handle r1 Hr1) as He1.
  revert Hr1. unfold PipelineExecutionResult.result_for_handle.
  destruct (from_string handle) as [sh|e] eqn:Hparse; simpl; [|done].
  destruct (get_solid pipeline sh) as [solid_def|] eqn:Hsolid; [|done].
  intros _.
  destruct (result_for_handle_ok second handle sh solid_def Hparse Hsolid)
    as (r2 & Hr2 & _ & _ & He2).
  unfold PipelineExecutionResult.result_for_handle in Hr2.
  rewrite Hparse in Hr2. simpl in Hr2. rewrite Hsolid in Hr2.
  exists r2. split; [exact Hr2|].
  assert (Hext : SolidExecutionResult.compute_step_events r2
                 = SolidExecutionResult.compute_step_events r1
                     ++ List.filter (selects handle COMPUTE) later).
  { rewrite He1, He2. simpl. apply List.filter_app. }
  split; [exact Hext|]. split.
  - intros key. unfold PipelineExecutionResult.events_by_step_key; simpl.
    unfold PipelineExecutionResult._construct_events_by_step_key.
    by rewrite foldl_app, (step_key_fold_lookup key later).
  - intros Hfailed.
    destruct (SolidExecutionResult._compute_steps_of_type r1 STEP_FAILURE)
      as [|e rest] eqn:Hf; [done|].
    assert (He : e ∈ SolidExecutionResult._compute_steps_of_type r1 STEP_FAILURE)
      by (rewrite Hf; left).
    unfold SolidExecutionResult._compute_steps_of_type in He.
    apply list_elem_of_filter in He as [Hty He].
    apply (failures_not_success r2 e); [|done].
    rewrite Hext. apply elem_of_app. by left.
Qed.

Lemma aggregation_extends_witness :
  let retry := [StepEvent "outer.inner.compute" inner_handle COMPUTE SuccessPayload] in
  exists r2,
    PipelineExecutionResult.result_for_handle (H := NodeAddress.path_model)
      (PipelineExecutionResult.new nested_pipeline "run" (failed_events ++ retry)
         plain_store) "outer" = Ok r2
    /\ SolidExecutionResult.success r2 = false.
Proof.
  intros retry.
  destruct (aggregation_extends (H := NodeAddress.path_model) nested_pipeline "run"
              plain_store "outer" failed_events retry _ eq_refl)
    as (r2 & Hr2 & _ & _ & Hfailed).
  exists r2. split; [exact Hr2|]. apply Hfailed. discriminate.
Defined.

(** ** Step events and step keys *)

Lemma filter_bool_sublist_mono {A : Type} (f g : A -> bool) (l : list A) :
  (forall x, f x = true -> g x = true) ->
  List.filter f l `sublist_of` List.filter g l.
Proof.
  intros Himp. induction l as [|x l IH]; simpl; [constructor|].
  destruct (f x) eqn:Hf.
  - rewrite (Himp x Hf). by constructor.
  - destruct (g x); [by constructor|exact IH].
Qed.

(** X11. Every event a node result holds, of whatever step kind, comes
    from [step_event_list]: the events of each step kind of the result of
    [result_for_handle] are a subsequence of the step events of the
    pipeline result, which are a subsequence of its event list and are all
    step events. *)
Theorem node_events_are_step_events `{NodeAddressModel}
    (self : PipelineExecutionResult.t) (handle : string) (r : SolidExecutionResult.t)
    (kind : StepKind) :
  PipelineExecutionResult.result_for_handle self handle = Ok r ->
  default [] (SolidExecutionResult.step_events_by_kind r !! kind)
    `sublist_of` PipelineExecutionResult.step_event_list self
  /\ PipelineExecutionResult.step_event_list self
       `sublist_of` PipelineExecutionResult.event_list self
  /\ (forall e, e ∈ PipelineExecutionResult.step_event_list self ->
                is_step_event e = true).
Proof.
  unfold PipelineExecutionResult.result_for_handle.
  destruct (from_string handle) as [sh|e]; simpl; [|done].
  destruct (get_solid _ sh) as [solid_def|]; [|done].
  intros [= <-]. simpl. rewrite bucket_fold_lookup, lookup_empty. simpl.
  unfold PipelineExecutionResult.step_event_list. split; [|split].
  - apply filter_bool_sublist_mono. intros [key h k payload|lifecycle]; done.
  - apply filter_bool_sublist.
  - intros e He. by apply elem_of_filter_bool in He as [_ He].
Qed.

Lemma node_events_are_step_events_witness :
  exists r,
    PipelineExecutionResult.result_for_handle (H := NodeAddress.path_model)
      (PipelineExecutionResult.new nested_pipeline "run" succeeded_events plain_store)
      "outer.inner" = Ok r
    /\ SolidExecutionResult.compute_step_events r
         `sublist_of` PipelineExecutionResult.step_event_list
                        (PipelineExecutionResult.new nested_pipeline "run"
                           succeeded_events plain_store).
Proof.
  eexists. split; [reflexivity|].
  apply (node_events_are_step_events (H := NodeAddress.path_model)
           (PipelineExecutionResult.new nested_pipeline "run" succeeded_events plain_store)
           "outer.inner" _ COMPUTE eq_refl).
Defined.

Lemma step_key_fold_cases (key : option string) (events : list DagsterEvent)
    (acc : gmap (option string) (list DagsterEvent)) :
  foldl (fun d event => dict_append d (step_key event) event) acc events !! key
  = match List.filter (fun event => bool_decide (step_key event = key)) events with
    | [] => acc !! key
    | of_key => Some (default [] (acc !! key) ++ of_key)
    end.
Proof.
  revert acc. induction events as [|event events IH]; intros acc; simpl; [done|].
  rewrite IH. unfold dict_append.
  destruct (decide (step_key event = key)) as [<-|Hne].
  - rewrite bool_decide_eq_true_2, lookup_insert_eq by done. simpl.
    destruct (List.filter _ events); [done|]. by rewrite <- app_assoc.
  - rewrite bool_decide_eq_false_2, lookup_insert_ne by done. done.
Qed.

(** X12. The step-key index has an entry exactly for the step keys that
    occur in the event list, and no entry is an empty list: looking up a
    key without events finds nothing. *)
Theorem events_by_step_key_entries (pipeline : PipelineDefinition) (run_id : string)
    (events : list DagsterEvent) (store : unit -> Context) (key : option string) :
  let index := PipelineExecutionResult.events_by_step_key
                 (PipelineExecutionResult.new pipeline run_id events store) in
  (is_Some (index !! key) <-> exists e, e ∈ events /\ step_key e = key)
  /\ index !! key <> Some []
  /\ (forall of_key e, index !! key = Some of_key -> e ∈ of_key ->
        e ∈ events /\ step_key e = key).
Proof.
  intros index.
  assert (Hcases : index !! key
            = match List.filter (fun event => bool_decide (step_key event = key)) events with
              | [] => None
              | of_key => Some of_key
              end).
  { unfold index, PipelineExecutionResult.events_by_step_key; simpl.
    unfold PipelineExecutionResult._construct_events_by_step_key.
    rewrite step_key_fold_cases, lookup_empty. by destruct (List.filter _ events). }
  destruct (List.filter _ events) as [|e0 rest] eqn:Hfilter.
  - rewrite Hcases. split; [|split; [done|done]].
    split; [by intros [? ?]|]. intros (e & He & Hkey).
    pose proof (proj1 (filter_bool_nil_iff _ _) Hfilter e He) as Hno.
    simpl in Hno. by rewrite bool_decide_eq_true_2 in Hno.
  - rewrite Hcases. split; [|split; [done|]].
    + split; [|by eexists]. intros _.
      assert (Hin : e0 ∈ List.filter (fun event => bool_decide (step_key event = key)) events)
        by (rewrite Hfilter; left).
      apply elem_of_filter_bool in Hin as [Hin Hkey].
      exists e0. split; [done|]. by apply bool_decide_eq_true_1 in Hkey.
    + intros of_key e [= <-] He. rewrite <- Hfilter in He.
      apply elem_of_filter_bool in He as [He Hkey].
      split; [done|]. by apply bool_decide_eq_true_1 in Hkey.
Qed.

Lemma events_by_step_key_entries_witness :
  let index := PipelineExecutionResult.events_by_step_key
                 (PipelineExecutionResult.new nested_pipeline "run" succeeded_events
                    plain_store) in
  index !! Some "missing.compute" = None
  /\ is_Some (index !! Some "outer.inner.compute").
Proof.
  intros index.
  destruct (events_by_step_key_entries nested_pipeline "run" succeeded_events plain_store
              (Some "outer.inner.compute")) as (Hpresent & _ & _).
  split; [reflexivity|].
  apply Hpresent.
  exists (StepEvent "outer.inner.compute" inner_handle COMPUTE SuccessPayload).
  split; [|reflexivity]. right; right; left.
Defined.

(** * Further properties of run creation *)

Lemma created_record_fields `{Collaborators}
    (external_pipeline : ExternalPipeline.t) (execution_params : ExecutionParams.t)
    (instance : DagsterInstance) (step_keys : option (list string))
    (plan : ExternalExecutionPlan.t) :
  ensure_valid_config external_pipeline (ExecutionParams.mode execution_params)
    (ExecutionParams.run_config execution_params) = Ok () ->
  compute_step_keys_to_execute instance external_pipeline execution_params = Ok step_keys ->
  get_external_execution_plan_or_raise instance external_pipeline
    (ExecutionParams.mode execution_params) (ExecutionParams.run_config execution_params)
    step_keys = Ok plan ->
  exists run,
    create_valid_pipeline_run external_pipeline execution_params instance
    = (Ok run, {| runs := runs instance ++ [run] |})
    /\ PipelineRun.run_id run
       = str_or_else
           (ExecutionMetadata.run_id (ExecutionParams.execution_metadata execution_params))
           make_new_run_id
    /\ PipelineRun.solids_to_execute run
       = frozenset_or_none
           (Selector.solid_selection (ExecutionParams.selector execution_params))
    /\ PipelineRun.pipeline_name run
       = Selector.pipeline_name (ExecutionParams.selector execution_params).
Proof.
  intros Hvalid Hkeys Hplan.
  unfold create_valid_pipeline_run, run_bind, reading, create_run.
  rewrite Hvalid, Hkeys, Hplan. eexists. split; [reflexivity|]. by repeat split.
Qed.

(** X13. The created run has the run id of the request when the request
    has a non-empty one; when the request has none, or an empty one, the
    run id is the one [make_new_run_id] makes. *)
Theorem created_run_id `{Collaborators}
    (external_pipeline : ExternalPipeline.t) (execution_params : ExecutionParams.t)
    (instance : DagsterInstance) (step_keys : option (list string))
    (plan : ExternalExecutionPlan.t) :
  let requested :=
    ExecutionMetadata.run_id (ExecutionParams.execution_metadata execution_params) in
  ensure_valid_config external_pipeline (ExecutionParams.mode execution_params)
    (ExecutionParams.run_config execution_params) = Ok () ->
  compute_step_keys_to_execute instance external_pipeline execution_params = Ok step_keys ->
  get_external_execution_plan_or_raise instance external_pipeline
    (ExecutionParams.mode execution_params) (ExecutionParams.run_config execution_params)
    step_keys = Ok plan ->
  exists run instance',
    create_valid_pipeline_run external_pipeline execution_params instance
    = (Ok run, instance')
    /\ (forall id, requested = Some id -> id <> "" -> PipelineRun.run_id run = id)
    /\ (requested = None \/ requested = Some "" ->
        PipelineRun.run_id run = make_new_run_id ()).
Proof.
  intros requested Hvalid Hkeys Hplan.
  destruct (created_record_fields external_pipeline execution_params instance step_keys plan
              Hvalid Hkeys Hplan) as (run & Hrun & Hid & _).
  fold requested in Hid. exists run, {| runs := runs instance ++ [run] |}.
  split; [exact Hrun|]. rewrite Hid. unfold str_or_else. split.
  - intros id -> Hne. apply String.eqb_neq in Hne. by rewrite Hne.
  - by intros [->| ->].
Qed.

Lemma created_run_id_witness :
  exists run instance',
    create_valid_pipeline_run (H := accepting) team_pipeline retry_of_R1 two_runs
    = (Ok run, instance')
    /\ PipelineRun.run_id run = "R2".
Proof.
  destruct (created_run_id (H := accepting) team_pipeline retry_of_R1 two_runs
              (Some ["b.compute"; "c.compute"])
              {| ExternalExecutionPlan.execution_plan_snapshot := "plan" |}
              eq_refl eq_refl eq_refl) as (run & instance' & Hrun & _ & Hfresh).
  exists run, instance'. split; [exact Hrun|]. apply Hfresh. by left.
Defined.

(** X14. The created run has no [solids_to_execute] exactly when the
    request's solid selection is absent or empty; otherwise it is the set
    of the selected names, whatever their order and repetitions. *)
Theorem created_solids_to_execute `{Collaborators}
    (external_pipeline : ExternalPipeline.t) (execution_params : ExecutionParams.t)
    (instance : DagsterInstance) (step_keys : option (list string))
    (plan : ExternalExecutionPlan.t) :
  let selection :=
    Selector.solid_selection (ExecutionParams.selector execution_params) in
  ensure_valid_config external_pipeline (ExecutionParams.mode execution_params)
    (ExecutionParams.run_config execution_params) = Ok () ->
  compute_step_keys_to_execute instance external_pipeline execution_params = Ok step_keys ->
  get_external_execution_plan_or_raise instance external_pipeline
    (ExecutionParams.mode execution_params) (ExecutionParams.run_config execution_params)
    step_keys = Ok plan ->
  exists run instance',
    create_valid_pipeline_run external_pipeline execution_params instance
    = (Ok run, instance')
    /\ (PipelineRun.solids_to_execute run = None
        <-> selection = None \/ selection = Some [])
    /\ (forall solids : gset string,
          PipelineRun.solids_to_execute run = Some solids ->
          exists names, selection = Some names /\ names <> []
                        /\ forall name, name ∈ solids <-> name ∈ names).
Proof.
  intros selection Hvalid Hkeys Hplan.
  destruct (created_record_fields external_pipeline execution_params instance step_keys plan
              Hvalid Hkeys Hplan) as (run & Hrun & _ & Hsolids & _).
  fold selection in Hsolids. exists run, {| runs := runs instance ++ [run] |}.
  split; [exact Hrun|]. rewrite Hsolids. unfold frozenset_or_none.
  destruct selection as [[|name names]|]; split.
  - split; [by right|done].
  - done.
  - split; [done|]. by intros [?|?].
  - intros solids [= <-]. exists (name :: names). split; [done|]. split; [done|].
    intros n. rewrite elem_of_union, elem_of_singleton, elem_of_list_to_set.
    by rewrite elem_of_cons.
  - split; [by left|done].
  - done.
Qed.

Lemma created_solids_to_execute_witness :
  exists run instance',
    create_valid_pipeline_run (H := accepting) team_pipeline retry_of_R1 two_runs
    = (Ok run, instance')
    /\ PipelineRun.solids_to_execute run = None.
Proof.
  destruct (created_solids_to_execute (H := accepting) team_pipeline retry_of_R1 two_runs
              (Some ["b.compute"; "c.compute"])
              {| ExternalExecutionPlan.execution_plan_snapshot := "plan" |}
              eq_refl eq_refl eq_refl) as (run & instance' & Hrun & Hnone & _).
  exists run, instance'. split; [exact Hrun|]. apply Hnone. by left.
Defined.

(** X15. The error of [create_valid_pipeline_run] is that of the first of
    its three preparatory calls that fails, in the order validation, step
    resolution, plan building: an invalid configuration is reported
    whatever the later calls would do, and the plan is asked for the step
    keys that resolution returned. *)
Theorem first_failure_reported `{Collaborators}
    (external_pipeline : ExternalPipeline.t) (execution_params : ExecutionParams.t)
    (instance : DagsterInstance) (e : exn) :
  let mode := ExecutionParams.mode execution_params in
  let run_config := ExecutionParams.run_config execution_params in
  let validated := ensure_valid_config external_pipeline mode run_config in
  let resolved := compute_step_keys_to_execute instance external_pipeline execution_params in
  let outcome := create_valid_pipeline_run external_pipeline execution_params instance in
  (validated = Raise e -> outcome = (Raise e, instance))
  /\ (validated = Ok () -> resolved = Raise e -> outcome = (Raise e, instance))
  /\ (forall step_keys,
        validated = Ok () -> resolved = Ok step_keys ->
        get_external_execution_plan_or_raise instance external_pipeline mode run_config
          step_keys = Raise e ->
        outcome = (Raise e, instance)).
Proof.
  intros mode run_config validated resolved outcome.
  unfold outcome, create_valid_pipeline_run, run_bind, reading.
  fold mode run_config. fold validated. fold resolved.
  split; [|split].
  - by intros ->.
  - by intros -> ->.
  - intros step_keys -> -> Hplan. by rewrite Hplan.
Qed.

Lemma first_failure_reported_witness :
  create_valid_pipeline_run (H := refusing_plan) team_pipeline retry_of_R1 two_runs
  = (Raise (CollaboratorError "get_external_execution_plan_or_raise" "invalid subset"),
     two_runs).
Proof.
  destruct (first_failure_reported (H := refusing_plan) team_pipeline retry_of_R1 two_runs
              (CollaboratorError "get_external_execution_plan_or_raise" "invalid subset"))
    as (_ & _ & Hplan).
  apply (Hplan (Some ["b.compute"; "c.compute"])); reflexivity.
Defined.

(** * Order of the compute events *)

(** X16. [success] and [skipped] of a node do not depend on the order of
    its compute events: two node results whose compute events are
    permutations of each other have the same [success] and [skipped]. *)
Theorem success_skipped_any_order (r1 r2 : SolidExecutionResult.t) :
  SolidExecutionResult.compute_step_events r1
    ≡ₚ SolidExecutionResult.compute_step_events r2 ->
  SolidExecutionResult.success r1 = SolidExecutionResult.success r2
  /\ SolidExecutionResult.skipped r1 = SolidExecutionResult.skipped r2.
Proof.
  intros Hperm. split; apply Bool.eq_true_iff_eq.
  - unfold SolidExecutionResult.success. rewrite !success_loop_true.
    split; intros [[Hb|(e & He & Hty)] Hno]; try done.
    + split; [right; exists e; by rewrite <- Hperm|].
      intros e' He'. apply Hno. by rewrite Hperm.
    + split; [right; exists e; by rewrite Hperm|].
      intros e' He'. apply Hno. by rewrite <- Hperm.
  - unfold SolidExecutionResult.skipped. rewrite !forallb_forall.
    split; intros Hall e He; apply Hall.
    + apply list_elem_of_In. rewrite Hperm. by apply list_elem_of_In.
    + apply list_elem_of_In. rewrite <- Hperm. by apply list_elem_of_In.
Qed.

Lemma success_skipped_any_order_witness :
  let success_event := StepEvent "a.compute" ["a"] COMPUTE SuccessPayload in
  let failure_event := StepEvent "b.compute" ["a"; "b"] COMPUTE
                         (FailurePayload {| error := "late" |}) in
  SolidExecutionResult.success (node_result [success_event; failure_event] plain_store)
  = SolidExecutionResult.success (node_result [failure_event; success_event] plain_store).
Proof.
  intros success_event failure_event.
  apply (success_skipped_any_order
           (node_result [success_event; failure_event] plain_store)
           (node_result [failure_event; success_event] plain_store)).
  apply perm_swap.
Defined.
